(** * Polychromatic: the Middleman facade and the undervolt backend stub

    A shallow embedding of [polychromatic/middleman.py] and
    [polychromatic/backends/undervolt.py].

    - Python objects are records; a backend object carries its methods as
      fields, as the plugin objects do in the source.
    - The hardware and the daemons behind the backends are an abstract
      [World]; every backend method reads and may change it.
    - [Middleman] methods are state transformers over the Middleman object,
      the world and a log of the calls made on the collaborators.
    - Exceptions are modelled where the source raises or handles them:
      the classes the source names, any other class deriving from
      [Exception], and the exits that derive from [BaseException] only. *)

From Stdlib Require Import String List Bool ZArith.
From stdpp Require Import base option list strings gmap.

Local Open Scope string_scope.
Local Open Scope list_scope.

(** ** Python exceptions and the state-and-exception monad *)

Module Py.

(** The exception classes the source names, every other class that
    derives from [Exception] (class name and message), and the two exits
    that derive from [BaseException] without deriving from [Exception]. *)
Inductive exn : Type :=
| ImportError (msg : string)
| ModuleNotFoundError (msg : string)
| NameError (msg : string)
| KeyError (key : string)
| OtherException (cls msg : string)
| KeyboardInterrupt
| SystemExit (code : string).

(** [isinstance(e, ImportError)]: ModuleNotFoundError derives from it. *)
Definition is_ImportError (e : exn) : bool :=
  match e with
  | ImportError _ | ModuleNotFoundError _ => true
  | _ => false
  end.

Definition is_ModuleNotFoundError (e : exn) : bool :=
  match e with
  | ModuleNotFoundError _ => true
  | _ => false
  end.

Definition is_NameError (e : exn) : bool :=
  match e with
  | NameError _ => true
  | _ => false
  end.

Definition is_KeyError (e : exn) : bool :=
  match e with
  | KeyError _ => true
  | _ => false
  end.

(** [isinstance(e, Exception)]: KeyboardInterrupt and SystemExit derive
    from BaseException directly. *)
Definition is_Exception (e : exn) : bool :=
  match e with
  | ImportError _ | ModuleNotFoundError _ | NameError _
  | KeyError _ | OtherException _ _ => true
  | KeyboardInterrupt | SystemExit _ => false
  end.

(** A statement either completes with a value or raises; the state reached
    so far survives in both cases (Python does not roll back mutations). *)
Inductive outcome (S A : Type) : Type :=
| Returns (a : A) (s : S)
| Raises (e : exn) (s : S).
Arguments Returns {S A} a s.
Arguments Raises {S A} e s.

Definition M (S A : Type) : Type := S -> outcome S A.

Definition ret {S A} (a : A) : M S A := fun s => Returns a s.

Definition raise {S A} (e : exn) : M S A := fun s => Raises e s.

Definition bind {S A B} (m : M S A) (k : A -> M S B) : M S B :=
  fun s =>
    match m s with
    | Returns a s' => k a s'
    | Raises e s' => Raises e s'
    end.

Definition modify {S} (f : S -> S) : M S unit := fun s => Returns tt (f s).

Definition pass {S} : M S unit := ret tt.

(** One [except] clause: the class test and the handler body. *)
Definition clause (S A : Type) : Type := (exn -> bool) * (exn -> M S A).

(** The first clause whose class test accepts the exception. *)
Fixpoint select {S A} (cs : list (clause S A)) (e : exn) : option (M S A) :=
  match cs with
  | [] => None
  | (test, handler) :: rest =>
      if test e then Some (handler e) else select rest e
  end.

(** [try: body  except ...: ...]. An exception no clause accepts
    propagates. *)
Definition try_except {S A} (body : M S A) (cs : list (clause S A)) : M S A :=
  fun s =>
    match body s with
    | Returns a s' => Returns a s'
    | Raises e s' =>
        match select cs e with
        | Some handler => handler s'
        | None => Raises e s'
        end
    end.

(** Python truthiness of a list. *)
Definition truthy {A} (l : list A) : bool :=
  match l with
  | [] => false
  | _ :: _ => true
  end.

End Py.

Declare Scope py_scope.
Delimit Scope py_scope with py.
Notation "x <- c1 ;; c2" := (Py.bind c1 (fun x => c2))
  (at level 100, c1 at next level, c2 at level 200, only parsing) : py_scope.
Notation "c1 ;; c2" := (Py.bind c1 (fun _ => c2))
  (at level 100, c2 at level 200, only parsing) : py_scope.

(** ** The data model of [backends/_backend.py], as the Middleman uses it *)

Module Backend.

(** [Backend.Option.Parameter]. *)
Record Param : Type := mkParam {
  p_data : string;
  p_label : string;
  p_active : bool;
  p_default : bool;
  p_colours_required : nat
}.

(** The option classes: [Backend.Option] and its four subclasses. *)
Inductive OptionClass : Type :=
| PlainOption | EffectOption | ToggleOption | SliderOption | MultipleChoiceOption.

Record Option : Type := mkOption {
  o_class : OptionClass;
  uid : string;
  active : bool;
  value : Z;
  parameters : list Param;
  colours : list string;
  colours_required : nat
}.

(** [isinstance(option, Backend.EffectOption)]. *)
Definition is_EffectOption (o : Option) : bool :=
  match o_class o with
  | EffectOption => true
  | _ => false
  end.

(** [Backend.DeviceItem.Zone]. *)
Record Zone : Type := mkZone {
  zone_id : string;
  options : list Option
}.

(** [Backend.DeviceItem]. The [backend] attribute, assigned by the
    Middleman, refers to the owning backend object; the reference is
    represented by that backend's identifier. *)
Record DeviceItem : Type := mkDeviceItem {
  name : string;
  serial : string;
  form_factor : string;
  real_image : string;
  zones : list Zone;
  backend : option string
}.

(** What a backend method may hand back to the Middleman. *)
Inductive PyVal : Type :=
| PyNone
| PyList (l : list DeviceItem)
| PyDevice (d : DeviceItem)
| PyStr (s : string).

(** A backend object: its attributes and the behaviour of its methods
    on the world behind it. *)
Record t (World : Type) : Type := mk {
  backend_id : string;
  b_name : string;
  logo : string;
  version : string;
  project_url : string;
  bug_url : string;
  releases_url : string;
  license : string;
  init : World -> Py.outcome World bool;
  get_devices : World -> PyVal * World;
  get_device_by_name : string -> World -> PyVal * World;
  get_device_by_serial : string -> World -> PyVal * World
}.
Arguments mk {World}.
Arguments backend_id {World}.
Arguments b_name {World}.
Arguments logo {World}.
Arguments version {World}.
Arguments project_url {World}.
Arguments bug_url {World}.
Arguments releases_url {World}.
Arguments license {World}.
Arguments init {World}.
Arguments get_devices {World}.
Arguments get_device_by_name {World}.
Arguments get_device_by_serial {World}.

End Backend.

(** ** [backends/undervolt.py] *)

Module Undervolt.

(** A [cpuinfo.get_cpu_info()] that provides the entries the source
    reads: the Middleman and its backend objects are modelled with such
    a one. *)
Record CpuInfo : Type := mkCpuInfo {
  brand : string;
  vendor_id : string
}.

(** The dictionary [cpuinfo.get_cpu_info()] returns, for a [CpuInfo]. *)
Definition as_dict (info : CpuInfo) : gmap string string :=
  <["brand" := brand info]> (<["vendor_id" := vendor_id info]> ∅).

(** [d[k]] on a dictionary. *)
Definition subscript {S} (d : gmap string string) (k : string) : Py.M S string :=
  match d !! k with
  | Some v => Py.ret v
  | None => Py.raise (Py.KeyError k)
  end.

(** The sliders of the laptop tab ([controller/laptop.py],
    [VoltageSlider]): [apply] stores the new value in memory and
    [refresh] reads it back. The toolkit hands [apply] an integer in
    [min, max], which [float] and [round] represent exactly. *)
Record VoltageSlider : Type := mkVoltageSlider {
  vs_uid : string;
  vs_min : Z;
  vs_max : Z;
  vs_step : Z;
  vs_suffix : string;
  vs_value : Z;
  voltage : Z
}.

Definition VoltageSlider_new (tag : string) : VoltageSlider :=
  {| vs_uid := tag; vs_min := -200; vs_max := 0; vs_step := 1;
     vs_suffix := "mV"; vs_value := 0; voltage := 0 |}.

Definition slider_apply (new_value : Z) (sl : VoltageSlider) : VoltageSlider :=
  {| vs_uid := vs_uid sl; vs_min := vs_min sl; vs_max := vs_max sl;
     vs_step := vs_step sl; vs_suffix := vs_suffix sl;
     vs_value := vs_value sl; voltage := new_value |}.

Definition slider_refresh (sl : VoltageSlider) : VoltageSlider :=
  {| vs_uid := vs_uid sl; vs_min := vs_min sl; vs_max := vs_max sl;
     vs_step := vs_step sl; vs_suffix := vs_suffix sl;
     vs_value := voltage sl; voltage := voltage sl |}.

Section Undervolt.
Context {World : Type}.

(** [cpuinfo.get_cpu_info()], an external library, as the backend
    object of the Middleman sees it. *)
Variable get_cpu_info : World -> CpuInfo.

(** [UndervoltBackend.init]. *)
Definition init (w : World) : Py.outcome World bool :=
  Py.Returns true w.

(** [UndervoltBackend.get_devices]: the device is built, which reads
    the ["brand"] entry of the cpu info and raises KeyError without it,
    and then dropped, the [append] being commented out in the source. *)
Definition get_devices (cpuinfo_get_cpu_info : World -> gmap string string)
  : Py.M World (list Backend.DeviceItem) :=
  (let devices : list Backend.DeviceItem := [] in
   brand <- (fun w => subscript (cpuinfo_get_cpu_info w) "brand" w) ;;
   let device :=
     {| Backend.name := brand;
        Backend.form_factor := "cpu";
        Backend.real_image := "";
        Backend.serial := "";
        Backend.zones := [];
        Backend.backend := None |} in
   Py.ret devices)%py.

(** What the Middleman receives from [backend.get_devices()] on the
    backend object: the list that [get_devices] returns. The object is
    modelled with a cpu info that has the ["brand"] entry, so the call
    returns and the other branch is not reached. *)
Definition get_devices_answer (w : World) : Backend.PyVal * World :=
  match get_devices (fun w => as_dict (get_cpu_info w)) w with
  | Py.Returns devices w' => (Backend.PyList devices, w')
  | Py.Raises _ w' => (Backend.PyNone, w')
  end.

(** [UndervoltBackend.get_device_by_name] and [get_device_by_serial]
    have a docstring only: they return [None]. *)
Definition get_device_by_name (name : string) (w : World)
  : Backend.PyVal * World := (Backend.PyNone, w).

Definition get_device_by_serial (serial : string) (w : World)
  : Backend.PyVal * World := (Backend.PyNone, w).

(** [UndervoltBackend.__init__]. *)
Definition UndervoltBackend : Backend.t World :=
  {| Backend.backend_id := "undervolt";
     Backend.b_name := "UndervoltBackend";
     Backend.logo := "openrazer.svg";
     Backend.version := "0.0.0";
     Backend.project_url := "https://openrazer.github.io";
     Backend.bug_url := "https://github.com/openrazer/openrazer/issues";
     Backend.releases_url := "https://github.com/openrazer/openrazer/releases";
     Backend.license := "GPLv2";
     Backend.init := init;
     Backend.get_devices := get_devices_answer;
     Backend.get_device_by_name := get_device_by_name;
     Backend.get_device_by_serial := get_device_by_serial |}.

(** The process state [apply] and [save] run in: the backend object,
    the sliders of the laptop tab, the world and the debug output. *)
Record Process : Type := mkProcess {
  self : Backend.t World;
  sliders : list VoltageSlider;
  hardware : World;
  debug_log : list string
}.

(** Modelled from the spec: [Backend.debug] lives in
    [backends/_backend.py], which is absent; the spec says that
    [apply] and [save] "only log a debug string", so [debug] appends
    its message to the debug output and touches nothing else. *)
Definition debug (msg : string) (p : Process) : Process :=
  {| self := self p; sliders := sliders p; hardware := hardware p;
     debug_log := debug_log p ++ [msg] |}.

(** [UndervoltBackend.apply]. *)
Definition apply (p : Process) : Process :=
  debug "Apply undervolting settings." p.

(** [UndervoltBackend.save]. *)
Definition save (p : Process) : Process :=
  debug "Save undervolting settings." p.

End Undervolt.

End Undervolt.

(** ** [middleman.py] *)

Module Middleman.

(** Calls the Middleman makes on its collaborators, in order. *)
Inductive Event : Type :=
| EvImport (backend_id : string)
| EvConstruct (backend_id : string)
| EvInit (backend_id : string)
| EvGetDevices (backend_id : string)
| EvGetDeviceByName (backend_id name : string)
| EvGetDeviceBySerial (backend_id serial : string).

Section Middleman.
(** [World]: the hardware and daemons behind the backends.
    [Troubleshooter]: the type of the [troubleshoot] functions of the
    [troubleshoot] package. *)
Context {World Troubleshooter : Type}.

(** [troubleshoot/openrazer.py]'s [troubleshoot]. *)
Variable openrazer_troubleshoot : Troubleshooter.

(** [common.get_exception_as_string]. *)
Variable get_exception_as_string : Py.exn -> string.

(** [cpuinfo.get_cpu_info()]. *)
Variable get_cpu_info : World -> Undervolt.CpuInfo.

Definition TROUBLESHOOT_MODULES : gmap string Troubleshooter :=
  {[ "openrazer" := openrazer_troubleshoot ]}.

(** The attributes of a [Middleman] object. [_base], an opaque handle
    that is only passed on to the backend constructors, is left out. *)
Record t : Type := mk {
  backends : list (Backend.t World);
  bad_init : list (Backend.t World);
  not_installed : list string;
  troubleshooters : gmap string Troubleshooter;
  import_errors : gmap string string;
  device_cache : list Backend.DeviceItem
}.

(** [Middleman.__init__]. *)
Definition new : t :=
  {| backends := []; bad_init := []; not_installed := [];
     troubleshooters := ∅; import_errors := ∅; device_cache := [] |}.

(** The Middleman object, the world behind the backends, and the
    calls made so far. *)
Record State : Type := mkState {
  self : t;
  world : World;
  calls : list Event
}.

Definition with_self (f : t -> t) (s : State) : State :=
  {| self := f (self s); world := world s; calls := calls s |}.

Definition with_world (w : World) (s : State) : State :=
  {| self := self s; world := w; calls := calls s |}.

Definition record (ev : Event) (s : State) : State :=
  {| self := self s; world := world s; calls := calls s ++ [ev] |}.

(** Attribute updates. *)
Definition append_backends (b : Backend.t World) (m : t) : t :=
  {| backends := backends m ++ [b]; bad_init := bad_init m;
     not_installed := not_installed m;
     troubleshooters := troubleshooters m;
     import_errors := import_errors m; device_cache := device_cache m |}.

Definition append_bad_init (b : Backend.t World) (m : t) : t :=
  {| backends := backends m; bad_init := bad_init m ++ [b];
     not_installed := not_installed m;
     troubleshooters := troubleshooters m;
     import_errors := import_errors m; device_cache := device_cache m |}.

Definition append_not_installed (id : string) (m : t) : t :=
  {| backends := backends m; bad_init := bad_init m;
     not_installed := not_installed m ++ [id];
     troubleshooters := troubleshooters m;
     import_errors := import_errors m; device_cache := device_cache m |}.

Definition set_troubleshooter (id : string) (f : Troubleshooter) (m : t) : t :=
  {| backends := backends m; bad_init := bad_init m;
     not_installed := not_installed m;
     troubleshooters := <[id := f]> (troubleshooters m);
     import_errors := import_errors m; device_cache := device_cache m |}.

Definition set_import_error (id msg : string) (m : t) : t :=
  {| backends := backends m; bad_init := bad_init m;
     not_installed := not_installed m;
     troubleshooters := troubleshooters m;
     import_errors := <[id := msg]> (import_errors m);
     device_cache := device_cache m |}.

Definition set_device_cache (l : list Backend.DeviceItem) (m : t) : t :=
  {| backends := backends m; bad_init := bad_init m;
     not_installed := not_installed m;
     troubleshooters := troubleshooters m;
     import_errors := import_errors m; device_cache := l |}.

(** *** [init] *)

(** What the environment decides about the two backend modules.
    [backends/openrazer.py] is absent: the outcome of its constructor
    and of its methods are parameters. *)
Record Env : Type := mkEnv {
  import_openrazer : option Py.exn;
  openrazer_construct : World -> Py.outcome World unit;
  openrazer_version : string;
  openrazer_init : World -> Py.outcome World bool;
  openrazer_get_devices : World -> Backend.PyVal * World;
  openrazer_get_device_by_name : string -> World -> Backend.PyVal * World;
  openrazer_get_device_by_serial : string -> World -> Backend.PyVal * World;
  import_undervolt : option Py.exn
}.

(** [import polychromatic.backends.<id>]: [None] when it succeeds. *)
Definition import_module (id : string) (r : option Py.exn) : Py.M State unit :=
  fun s =>
    match r with
    | None => Py.Returns tt (record (EvImport id) s)
    | Some e => Py.Raises e (record (EvImport id) s)
    end.

(** Run a backend method on the world of the state. *)
Definition on_world {A} (ev : Event) (f : World -> Py.outcome World A)
  : Py.M State A :=
  fun s =>
    match f (world s) with
    | Py.Returns a w => Py.Returns a (with_world w (record ev s))
    | Py.Raises e w => Py.Raises e (with_world w (record ev s))
    end.

(** Modelled from the spec: the class [OpenRazerBackend] of the absent
    [backends/openrazer.py]; its identifier is the fixed "openrazer"
    by which the spec says the module is discovered. *)
Definition OpenRazerBackend (env : Env) : Py.M State (Backend.t World) :=
  (on_world (EvConstruct "openrazer") (openrazer_construct env) ;;
   Py.ret
     {| Backend.backend_id := "openrazer";
        Backend.b_name := "OpenRazer";
        Backend.logo := "openrazer.svg";
        Backend.version := openrazer_version env;
        Backend.project_url := "https://openrazer.github.io";
        Backend.bug_url := "https://github.com/openrazer/openrazer/issues";
        Backend.releases_url := "https://github.com/openrazer/openrazer/releases";
        Backend.license := "GPLv2";
        Backend.init := openrazer_init env;
        Backend.get_devices := openrazer_get_devices env;
        Backend.get_device_by_name := openrazer_get_device_by_name env;
        Backend.get_device_by_serial := openrazer_get_device_by_serial env |})%py.

(** [undervolt_backend.UndervoltBackend(self._base)]. *)
Definition UndervoltBackend : Py.M State (Backend.t World) :=
  (on_world (EvConstruct "undervolt") (fun w => Py.Returns tt w) ;;
   Py.ret (Undervolt.UndervoltBackend get_cpu_info))%py.

(** [backend.init()]. *)
Definition call_init (b : Backend.t World) : Py.M State bool :=
  on_world (EvInit (Backend.backend_id b)) (Backend.init b).

(** [d[k]] on a dictionary. *)
Definition subscript {V} (d : gmap string V) (k : string) : Py.M State V :=
  match d !! k with
  | Some v => Py.ret v
  | None => Py.raise (Py.KeyError k)
  end.

(** [Middleman.init]. *)
Definition init (env : Env) : Py.M State unit :=
  (Py.try_except
     (import_module "openrazer" (import_openrazer env) ;;
      backend <- OpenRazerBackend env ;;
      ok <- call_init backend ;;
      if ok : bool
      then Py.modify (with_self (append_backends backend))
      else Py.modify (with_self (append_bad_init backend)))
     [ (fun e => Py.is_ImportError e || Py.is_ModuleNotFoundError e,
        fun _ => Py.modify (with_self (append_not_installed "openrazer")));
       (Py.is_Exception,
        fun e => Py.modify (with_self
                   (set_import_error "openrazer" (get_exception_as_string e)))) ] ;;
   Py.try_except
     (import_module "undervolt" (import_undervolt env) ;;
      backend <- UndervoltBackend ;;
      ok <- call_init backend ;;
      if ok : bool
      then Py.modify (with_self (append_backends backend))
      else Py.modify (with_self (append_bad_init backend)))
     [ (fun e => Py.is_ImportError e || Py.is_ModuleNotFoundError e,
        fun _ => Py.modify (with_self (append_not_installed "undervolt")));
       (Py.is_Exception,
        fun e => Py.modify (with_self
                   (set_import_error "undervolt" (get_exception_as_string e)))) ] ;;
   Py.try_except
     (f <- subscript TROUBLESHOOT_MODULES "openrazer" ;;
      Py.modify (with_self (set_troubleshooter "openrazer" f)))
     [ (Py.is_NameError, fun _ => Py.pass) ])%py.

(** The four classification collections, as membership tests on a
    backend identifier. *)
Definition in_backends (id : string) (m : t) : bool :=
  bool_decide (id ∈ map Backend.backend_id (backends m)).

Definition in_bad_init (id : string) (m : t) : bool :=
  bool_decide (id ∈ map Backend.backend_id (bad_init m)).

Definition in_not_installed (id : string) (m : t) : bool :=
  bool_decide (id ∈ not_installed m).

Definition in_import_errors (id : string) (m : t) : bool :=
  bool_decide (is_Some (import_errors m !! id)).

(** In how many of the four collections the identifier is recorded. *)
Definition times_classified (id : string) (m : t) : nat :=
  Nat.b2n (in_backends id m) + Nat.b2n (in_bad_init id m)
  + Nat.b2n (in_not_installed id m) + Nat.b2n (in_import_errors id m).

Definition known_backends : list string := ["openrazer"; "undervolt"].

(** *** The device cache *)

(** [device.backend = backend]. *)
Definition set_backend (b : Backend.t World) (d : Backend.DeviceItem)
  : Backend.DeviceItem :=
  {| Backend.name := Backend.name d;
     Backend.serial := Backend.serial d;
     Backend.form_factor := Backend.form_factor d;
     Backend.real_image := Backend.real_image d;
     Backend.zones := Backend.zones d;
     Backend.backend := Some (Backend.backend_id b) |}.

(** The [for backend in self.backends] loop of
    [_reload_device_cache_if_empty]. *)
Fixpoint reload_loop (bs : list (Backend.t World)) (s : State) : State :=
  match bs with
  | [] => s
  | backend :: rest =>
      let '(device_list, w) := Backend.get_devices backend (world s) in
      let s1 := with_world w (record (EvGetDevices (Backend.backend_id backend)) s) in
      match device_list with
      | Backend.PyList l =>
          let l' := map (set_backend backend) l in
          reload_loop rest
            (with_self (fun m => set_device_cache (device_cache m ++ l') m) s1)
      | _ => reload_loop rest s1
      end
  end.

(** [Middleman._reload_device_cache_if_empty]. *)
Definition _reload_device_cache_if_empty (s : State) : State :=
  if Py.truthy (device_cache (self s)) then s
  else reload_loop (backends (self s)) s.

(** [Middleman.invalidate_cache]. *)
Definition invalidate_cache (s : State) : State :=
  with_self (set_device_cache []) s.

(** [Middleman.reload_device_cache]. *)
Definition reload_device_cache (s : State) : State :=
  _reload_device_cache_if_empty (with_self (set_device_cache []) s).

(** [Middleman.get_devices]. *)
Definition get_devices (s : State) : list Backend.DeviceItem * State :=
  let s' := _reload_device_cache_if_empty s in
  (device_cache (self s'), s').

(** [Middleman.get_device_by_name]. *)
Fixpoint get_device_by_name_loop (name : string) (bs : list (Backend.t World))
  (s : State) : option Backend.DeviceItem * State :=
  match bs with
  | [] => (None, s)
  | backend :: rest =>
      let '(device, w) := Backend.get_device_by_name backend name (world s) in
      let s1 := with_world w
                  (record (EvGetDeviceByName (Backend.backend_id backend) name) s) in
      match device with
      | Backend.PyDevice d => (Some d, s1)
      | _ => get_device_by_name_loop name rest s1
      end
  end.

Definition get_device_by_name (name : string) (s : State)
  : option Backend.DeviceItem * State :=
  get_device_by_name_loop name (backends (self s)) s.

(** [Middleman.get_device_by_serial]. *)
Fixpoint get_device_by_serial_loop (serial : string) (bs : list (Backend.t World))
  (s : State) : option Backend.DeviceItem * State :=
  match bs with
  | [] => (None, s)
  | backend :: rest =>
      let '(device, w) := Backend.get_device_by_serial backend serial (world s) in
      let s1 := with_world w
                  (record (EvGetDeviceBySerial (Backend.backend_id backend) serial) s) in
      match device with
      | Backend.PyDevice d => (Some d, s1)
      | _ => get_device_by_serial_loop serial rest s1
      end
  end.

Definition get_device_by_serial (serial : string) (s : State)
  : option Backend.DeviceItem * State :=
  get_device_by_serial_loop serial (backends (self s)) s.

End Middleman.

(** *** Queries on zones and options; they read their argument only *)

(** [Middleman.get_active_effect]: falling off the loop returns [None]. *)
Fixpoint get_active_effect_loop (options : list Backend.Option)
  : option Backend.Option :=
  match options with
  | [] => None
  | opt :: rest =>
      if Backend.is_EffectOption opt && Backend.active opt
      then Some opt
      else get_active_effect_loop rest
  end.

Definition get_active_effect (zone : Backend.Zone) : option Backend.Option :=
  get_active_effect_loop (Backend.options zone).

(** [Middleman.get_active_parameter]. *)
Fixpoint get_active_parameter_loop (params : list Backend.Param)
  : option Backend.Param :=
  match params with
  | [] => None
  | param :: rest =>
      if Backend.p_active param then Some param
      else get_active_parameter_loop rest
  end.

Definition get_active_parameter (opt : Backend.Option) : option Backend.Param :=
  get_active_parameter_loop (Backend.parameters opt).

(** [Middleman.get_active_colours_required]. *)
Definition get_active_colours_required (opt : Backend.Option) : nat :=
  match get_active_parameter opt with
  | Some param => Backend.p_colours_required param
  | None => Backend.colours_required opt
  end.

(** [Middleman.get_default_parameter]. *)
Fixpoint get_default_parameter_loop (params : list Backend.Param)
  : option Backend.Param :=
  match params with
  | [] => None
  | param :: rest =>
      if Backend.p_default param then Some param
      else get_default_parameter_loop rest
  end.

Definition get_default_parameter (opt : Backend.Option) : option Backend.Param :=
  if negb (Py.truthy (Backend.parameters opt)) then None
  else
    match get_default_parameter_loop (Backend.parameters opt) with
    | Some param => Some param
    | None => Backend.parameters opt !! 0%nat
    end.

End Middleman.

(** ** [middleman.py]: backend registry queries and troubleshooting *)

Module Registry.

(** The argument of [get_backend]: a backend identifier given as a [str]
    (the legacy use), or an object with a [backend_id] attribute. *)
Inductive DeviceArg : Type :=
| ArgStr (s : string)
| ArgObject (backend_id : string).

(** What reading a missing attribute raises. *)
Definition AttributeError (cls attr : string) : Py.exn :=
  Py.OtherException "AttributeError"
    ("'" ++ cls ++ "' object has no attribute '" ++ attr ++ "'").

Section Registry.
Context {World Troubleshooter : Type}.

(** The arguments passed on to a troubleshooter, what it returns, and
    what calling it does. The troubleshooters are in the absent
    [troubleshoot] package. *)
Context {Args Results : Type}.
Variable call_troubleshooter :
  Troubleshooter -> Args -> World -> Py.outcome World Results.

(** [device.backend_id]. *)
Definition attr_backend_id {S} (device : DeviceArg) : Py.M S string :=
  match device with
  | ArgStr _ => Py.raise (AttributeError "str" "backend_id")
  | ArgObject id => Py.ret id
  end.

(** The first loop of [get_backend], entered when [type(device) == str]. *)
Fixpoint get_backend_str_loop (backend_id : string) (bs : list (Backend.t World))
  : option (Backend.t World) :=
  match bs with
  | [] => None
  | backend :: rest =>
      if String.eqb backend_id (Backend.backend_id backend) then Some backend
      else get_backend_str_loop backend_id rest
  end.

(** The second loop of [get_backend]; falling off it returns [None]. *)
Fixpoint get_backend_loop {S} (device : DeviceArg) (bs : list (Backend.t World))
  : Py.M S (option (Backend.t World)) :=
  match bs with
  | [] => Py.ret None
  | module :: rest =>
      (id <- attr_backend_id device ;;
       if String.eqb id (Backend.backend_id module) then Py.ret (Some module)
       else get_backend_loop device rest)%py
  end.

(** [Middleman.get_backend]. *)
Definition get_backend (device : DeviceArg)
  : Py.M (@Middleman.State World Troubleshooter) (option (Backend.t World)) :=
  fun s =>
    let backends := Middleman.backends (Middleman.self s) in
    match
      match device with
      | ArgStr backend_id => get_backend_str_loop backend_id backends
      | ArgObject _ => None
      end
    with
    | Some backend => Py.Returns (Some backend) s
    | None => get_backend_loop device backends s
    end.

(** [Middleman.is_backend_running]. *)
Fixpoint is_backend_running_loop (backend_id : string) (bs : list (Backend.t World))
  : bool :=
  match bs with
  | [] => false
  | module :: rest =>
      if String.eqb (Backend.backend_id module) backend_id then true
      else is_backend_running_loop backend_id rest
  end.

Definition is_backend_running (backend_id : string)
  (m : @Middleman.t World Troubleshooter) : bool :=
  is_backend_running_loop backend_id (Middleman.backends m).

(** [Middleman.get_versions]. *)
Fixpoint get_versions_loop (bs : list (Backend.t World)) (versions : gmap string string)
  : gmap string string :=
  match bs with
  | [] => versions
  | module :: rest =>
      get_versions_loop rest
        (<[Backend.backend_id module := Backend.version module]> versions)
  end.

Definition get_versions (m : @Middleman.t World Troubleshooter) : gmap string string :=
  get_versions_loop (Middleman.backends m) ∅.

(** [Middleman.get_devices_by_form_factor]. The [form_factor] attribute
    of the model holds the ["id"] entry of the form factor. *)
Fixpoint get_devices_by_form_factor_loop (form_factor_id : string)
  (cache devices : list Backend.DeviceItem) : list Backend.DeviceItem :=
  match cache with
  | [] => devices
  | device :: rest =>
      if String.eqb (Backend.form_factor device) form_factor_id
      then get_devices_by_form_factor_loop form_factor_id rest (devices ++ [device])
      else get_devices_by_form_factor_loop form_factor_id rest devices
  end.

Definition get_devices_by_form_factor (form_factor_id : string)
  (s : @Middleman.State World Troubleshooter)
  : list Backend.DeviceItem * @Middleman.State World Troubleshooter :=
  let s' := Middleman._reload_device_cache_if_empty s in
  (get_devices_by_form_factor_loop form_factor_id
     (Middleman.device_cache (Middleman.self s')) [], s').

(** [self.troubleshooters[backend]]. *)
Definition troubleshooter_of (backend : string)
  : Py.M (@Middleman.State World Troubleshooter) Troubleshooter :=
  fun s =>
    Middleman.subscript
      (Middleman.troubleshooters (Middleman.self s)) backend s.

(** Calling the troubleshooter found. *)
Definition run_troubleshooter (f : Troubleshooter) (args : Args)
  : Py.M (@Middleman.State World Troubleshooter) Results :=
  fun s =>
    match call_troubleshooter f args (Middleman.world s) with
    | Py.Returns r w => Py.Returns r (Middleman.with_world w s)
    | Py.Raises e w => Py.Raises e (Middleman.with_world w s)
    end.

(** [Middleman.troubleshoot]: the results, or [None] when no
    troubleshooter is available. *)
Definition troubleshoot (backend : string) (args : Args)
  : Py.M (@Middleman.State World Troubleshooter) (option Results) :=
  Py.try_except
    (f <- troubleshooter_of backend ;;
     r <- run_troubleshooter f args ;;
     Py.ret (Some r))%py
    [ (Py.is_KeyError, fun _ => Py.ret None) ].

End Registry.

End Registry.

(** ** [middleman.py]: re-applying options and setting colours *)

Module Replay.

(** The arguments of one [option.apply(...)] call. *)
Inductive ApplyArgs : Type :=
| ApplyData (param_data : string)
| ApplyActive (active : bool)
| ApplyValue (value : Z)
| ApplyNothing.

(** What the Middleman asks of the objects it is given: [option.apply]
    on the option with that [uid], and starting a helper process. *)
Inductive Action : Type :=
| Apply (uid : string) (args : ApplyArgs)
| StartComponent (component : string) (args : list string).

(** What a failed list assignment raises. *)
Definition IndexError : Py.exn :=
  Py.OtherException "IndexError" "list assignment index out of range".

(** [l[i] = x] on a Python list: a negative index counts from the end,
    an index outside [-len(l), len(l)) raises. *)
Definition setitem {A} (l : list A) (i : Z) (x : A) : option (list A) :=
  let n := Z.of_nat (length l) in
  if (0 <=? i)%Z && (i <? n)%Z then Some (<[Z.to_nat i := x]> l)
  else if (- n <=? i)%Z && (i <? 0)%Z then Some (<[Z.to_nat (n + i) := x]> l)
  else None.

(** The [for param in option.parameters] loop of
    [_apply_option_with_same_params]. *)
Fixpoint param_data_loop (params : list Backend.Param) (param_data : string) : string :=
  match params with
  | [] => param_data
  | param :: rest =>
      param_data_loop rest
        (if Backend.p_active param then Backend.p_data param else param_data)
  end.

(** [Middleman._apply_option_with_same_params]: the [apply] calls it
    makes on the option. *)
Definition _apply_option_with_same_params (opt : Backend.Option) : list Action :=
  match Backend.parameters opt with
  | first :: _ =>
      let param_data := Backend.p_data first in
      let param_data := param_data_loop (Backend.parameters opt) param_data in
      [Apply (Backend.uid opt) (ApplyData param_data)]
  | [] =>
      match Backend.o_class opt with
      | Backend.ToggleOption =>
          [Apply (Backend.uid opt) (ApplyActive (Backend.active opt))]
      | Backend.SliderOption =>
          [Apply (Backend.uid opt) (ApplyValue (Backend.value opt))]
      | Backend.EffectOption | Backend.MultipleChoiceOption =>
          [Apply (Backend.uid opt) ApplyNothing]
      | Backend.PlainOption => []
      end
  end.

Definition with_colours (colours : list string) (opt : Backend.Option)
  : Backend.Option :=
  {| Backend.o_class := Backend.o_class opt; Backend.uid := Backend.uid opt;
     Backend.active := Backend.active opt; Backend.value := Backend.value opt;
     Backend.parameters := Backend.parameters opt;
     Backend.colours := colours;
     Backend.colours_required := Backend.colours_required opt |}.

Definition with_options (options : list Backend.Option) (zone : Backend.Zone)
  : Backend.Zone :=
  {| Backend.zone_id := Backend.zone_id zone; Backend.options := options |}.

Definition with_zones (zones : list Backend.Zone) (d : Backend.DeviceItem)
  : Backend.DeviceItem :=
  {| Backend.name := Backend.name d; Backend.serial := Backend.serial d;
     Backend.form_factor := Backend.form_factor d;
     Backend.real_image := Backend.real_image d;
     Backend.zones := zones; Backend.backend := Backend.backend d |}.

(** [Middleman.set_colour_for_option], on the option object and the
    record of the actions made. *)
Definition set_colour_for_option (hex_value : string) (colour_pos : Z)
  : Py.M (Backend.Option * list Action) unit :=
  fun '(opt, log) =>
    match setitem (Backend.colours opt) colour_pos hex_value with
    | None => Py.Raises IndexError (opt, log)
    | Some colours =>
        let opt' := with_colours colours opt in
        Py.Returns tt (opt', log ++ _apply_option_with_same_params opt')
    end.

(** The position in [zone.options] of the object that
    [get_active_effect] returns. *)
Fixpoint active_effect_index (options : list Backend.Option) : option nat :=
  match options with
  | [] => None
  | opt :: rest =>
      if Backend.is_EffectOption opt && Backend.active opt then Some 0%nat
      else option_map S (active_effect_index rest)
  end.

(** [Middleman.set_colour_for_active_effect_zone]: the option found is
    the object in the zone, which the colour assignment changes in
    place. *)
Definition set_colour_for_active_effect_zone (hex_value : string) (colour_pos : Z)
  : Py.M (Backend.Zone * list Action) unit :=
  fun '(zone, log) =>
    match Middleman.get_active_effect zone,
          active_effect_index (Backend.options zone) with
    | Some opt, Some i =>
        match set_colour_for_option hex_value colour_pos (opt, log) with
        | Py.Returns r (opt', log') =>
            Py.Returns r (with_options (<[i := opt']> (Backend.options zone)) zone, log')
        | Py.Raises e (opt', log') =>
            Py.Raises e (with_options (<[i := opt']> (Backend.options zone)) zone, log')
        end
    | _, _ => Py.Returns tt (zone, log)
    end.

(** The [for zone in device.zones] loop of
    [set_colour_for_active_effect_device]: [done] are the zones already
    visited, [todo] those to come. *)
Fixpoint set_colour_zones_loop (hex_value : string) (colour_pos : Z)
  (done todo : list Backend.Zone) (log : list Action)
  : Py.outcome (list Backend.Zone * list Action) unit :=
  match todo with
  | [] => Py.Returns tt (done, log)
  | zone :: rest =>
      match set_colour_for_active_effect_zone hex_value colour_pos (zone, log) with
      | Py.Returns _ (zone', log') =>
          set_colour_zones_loop hex_value colour_pos (done ++ [zone']) rest log'
      | Py.Raises e (zone', log') => Py.Raises e (done ++ zone' :: rest, log')
      end
  end.

(** [Middleman.set_colour_for_active_effect_device]. *)
Definition set_colour_for_active_effect_device (hex_value : string) (colour_pos : Z)
  : Py.M (Backend.DeviceItem * list Action) unit :=
  fun '(device, log) =>
    match set_colour_zones_loop hex_value colour_pos [] (Backend.zones device) log with
    | Py.Returns r (zones, log') => Py.Returns r (with_zones zones device, log')
    | Py.Raises e (zones, log') => Py.Raises e (with_zones zones device, log')
    end.

Section Replay.
Context {World : Type}.

(** [device.refresh()], a method of the absent [Backend.DeviceItem]
    subclasses: it re-reads the options from the hardware. *)
Variable refresh : Backend.DeviceItem -> World -> Backend.DeviceItem * World.

(** [procpid.DeviceSoftwareState(serial).get_effect()], of the absent
    [procpid] module: the dictionary of the software effect playing on
    the device, if any. *)
Variable get_effect : string -> World -> option (gmap string string).

(** Python truthiness of what [get_effect] returns: [None] and the empty
    dictionary are false. *)
Definition effect_truthy (effect : option (gmap string string)) : bool :=
  match effect with
  | None => false
  | Some d => negb (bool_decide (d = ∅))
  end.

(** The [for zone in device.zones] loop of [replay_active_effect]. *)
Fixpoint replay_zones_loop (zones : list Backend.Zone) : list Action :=
  match zones with
  | [] => []
  | zone :: rest =>
      match Middleman.get_active_effect zone with
      | Some opt =>
          (if Backend.active opt then _apply_option_with_same_params opt else [])
          ++ replay_zones_loop rest
      | None => replay_zones_loop rest
      end
  end.

(** [Middleman.replay_active_effect], on the device object, the world
    and the record of the actions made. *)
Definition replay_active_effect
  : Py.M (Backend.DeviceItem * World * list Action) unit :=
  fun '(device, w, log) =>
    let '(device, w) := refresh device w in
    let effect := get_effect (Backend.serial device) w in
    if effect_truthy effect then
      match effect with
      | Some d =>
          match d !! "path" with
          | Some path =>
              Py.Returns tt
                (device, w,
                 log ++ [StartComponent "helper"
                           ["--run-fx"; path; "--device-serial"; Backend.serial device]])
          | None => Py.Raises (Py.KeyError "path") (device, w, log)
          end
      | None => Py.Returns tt (device, w, log)
      end
    else
      Py.Returns tt (device, w, log ++ replay_zones_loop (Backend.zones device)).

End Replay.

End Replay.

(** ** [controller/laptop.py]: the performance options of the laptop tab *)

Module Laptop.

(** The session attributes of a [LaptopTab] that its options read and
    write. *)
Record LaptopTab : Type := mkLaptopTab {
  has_silent : bool;
  has_balanced : bool;
  has_custom : bool;
  performance_state : string;
  cpu_state : string;
  gpu_state : string
}.

(** The session part of [LaptopTab.__init__]. *)
Definition LaptopTab_new : LaptopTab :=
  {| has_silent := true; has_balanced := true; has_custom := true;
     performance_state := "silent"; cpu_state := "low"; gpu_state := "low" |}.

(** An instance of one of the local [Option(Backend.EffectOption)]
    classes: the option object, its label, and the value of
    [performance_state] that the class's [refresh] compares with and its
    [apply] stores. *)
Record PerfOption : Type := mkPerfOption {
  po_option : Backend.Option;
  po_label : string;
  po_state : string
}.

Definition with_performance_state (state : string) (parent : LaptopTab) : LaptopTab :=
  {| has_silent := has_silent parent; has_balanced := has_balanced parent;
     has_custom := has_custom parent;
     performance_state := state;
     cpu_state := cpu_state parent; gpu_state := gpu_state parent |}.

Definition with_active (b : bool) (opt : Backend.Option) : Backend.Option :=
  {| Backend.o_class := Backend.o_class opt; Backend.uid := Backend.uid opt;
     Backend.active := b; Backend.value := Backend.value opt;
     Backend.parameters := Backend.parameters opt;
     Backend.colours := Backend.colours opt;
     Backend.colours_required := Backend.colours_required opt |}.

(** [Option.refresh]:
    [self.active = True if self._parent.performance_state == ... else False]. *)
Definition refresh (parent : LaptopTab) (o : PerfOption) : PerfOption :=
  {| po_option :=
       with_active (if String.eqb (performance_state parent) (po_state o)
                    then true else false) (po_option o);
     po_label := po_label o; po_state := po_state o |}.

(** [Option.apply]: [self._parent.performance_state = ...]. *)
Definition apply (o : PerfOption) (parent : LaptopTab) : LaptopTab :=
  with_performance_state (po_state o) parent.

Section Laptop.

(** The attributes [Backend.EffectOption.__init__] gives a new option
    (the base class is absent), and the translation function [self._]. *)
Variable EffectOption_init : Backend.Option.
Variable tr : string -> string.

(** [Option(...)]: the base constructor, then [self.uid = ...]. *)
Definition Option_new (uid label state : string) : PerfOption :=
  {| po_option :=
       {| Backend.o_class := Backend.EffectOption;
          Backend.uid := uid;
          Backend.active := Backend.active EffectOption_init;
          Backend.value := Backend.value EffectOption_init;
          Backend.parameters := Backend.parameters EffectOption_init;
          Backend.colours := Backend.colours EffectOption_init;
          Backend.colours_required := Backend.colours_required EffectOption_init |};
     po_label := label; po_state := state |}.

(** [LaptopTab._get_system_performance_options]: the [return] sits
    inside [if self.has_custom], so without that flag the method falls
    off its end and returns [None]. *)
Definition _get_system_performance_options (self : LaptopTab)
  : option (list PerfOption) :=
  let options := [] in
  let options :=
    if has_silent self
    then options ++ [Option_new "silent" (tr "Silent") "silent"] else options in
  let options :=
    if has_balanced self
    then options ++ [Option_new "balanced" (tr "Balanced") "balanced"] else options in
  if has_custom self
  then Some (options ++ [Option_new "boost" (tr "Custom") "custom"])
  else None.

(** [LaptopTab._get_cpu_performance_options]. *)
Definition _get_cpu_performance_options : list PerfOption :=
  let options := [] in
  let options := options ++ [Option_new "Low" (tr "Low") "Low"] in
  let options := options ++ [Option_new "Mid" (tr "Mid") "Mid"] in
  let options := options ++ [Option_new "High" (tr "High") "High"] in
  let options := options ++ [Option_new "Boost" (tr "Boost") "Boost"] in
  options.

(** [LaptopTab._get_gpu_performance_options]. *)
Definition _get_gpu_performance_options : list PerfOption :=
  let options := [] in
  let options := options ++ [Option_new "Low" (tr "Low") "Low"] in
  let options := options ++ [Option_new "Mid" (tr "Mid") "Mid"] in
  let options := options ++ [Option_new "High" (tr "High") "High"] in
  options.

(** The options of a group as a zone would hold them, after each was
    refreshed. *)
Definition refreshed (parent : LaptopTab) (group : list PerfOption)
  : list Backend.Option :=
  map (fun o => po_option (refresh parent o)) group.

End Laptop.

End Laptop.

(** ** Vocabulary of the properties *)

Module Props.

(** An option that [get_active_effect] accepts. *)
Definition active_effect (o : Backend.Option) : bool :=
  Backend.is_EffectOption o && Backend.active o.

(** [isinstance(v, Backend.DeviceItem)]. *)
Definition is_DeviceItem (v : Backend.PyVal) : bool :=
  match v with
  | Backend.PyDevice _ => true
  | _ => false
  end.

Section Scan.
Context {World : Type}.

(** A lookup method of a backend, already given its argument. *)
Definition query : Type := Backend.t World -> World -> Backend.PyVal * World.

(** The backends of [bs], asked one after the other starting in world
    [w], all answer with something that is not a [DeviceItem]; [w'] is
    the world after the last answer. *)
Inductive all_miss (ask : query) : list (Backend.t World) -> World -> World -> Prop :=
| miss_nil w : all_miss ask [] w w
| miss_cons b bs w v w1 w' :
    ask b w = (v, w1) ->
    is_DeviceItem v = false ->
    all_miss ask bs w1 w' ->
    all_miss ask (b :: bs) w w'.

(** The world after every backend of [bs] was asked for its devices. *)
Fixpoint world_after_get_devices (bs : list (Backend.t World)) (w : World) : World :=
  match bs with
  | [] => w
  | b :: rest => world_after_get_devices rest (snd (Backend.get_devices b w))
  end.

(** The calls [init] makes while it attempts the OpenRazer backend in
    world [w]: the import, then the constructor when the import
    succeeded, then [init()] when the constructor succeeded. *)
Definition openrazer_attempt (env : @Middleman.Env World) (w : World)
  : list Middleman.Event :=
  Middleman.EvImport "openrazer" ::
  match Middleman.import_openrazer env with
  | Some _ => []
  | None =>
      Middleman.EvConstruct "openrazer" ::
      match Middleman.openrazer_construct env w with
      | Py.Returns _ _ => [Middleman.EvInit "openrazer"]
      | Py.Raises _ _ => []
      end
  end.

(** The same for the undervolt backend, whose constructor is in the
    source. *)
Definition undervolt_attempt (env : @Middleman.Env World)
  : list Middleman.Event :=
  Middleman.EvImport "undervolt" ::
  match Middleman.import_undervolt env with
  | Some _ => []
  | None => [Middleman.EvConstruct "undervolt"; Middleman.EvInit "undervolt"]
  end.

End Scan.

End Props.

(** ** A small installation, used to evaluate the definitions *)

Module Examples.

Definition wave : Backend.Option :=
  {| Backend.o_class := Backend.EffectOption; Backend.uid := "wave";
     Backend.active := true; Backend.value := 0;
     Backend.parameters :=
       [ {| Backend.p_data := "1"; Backend.p_label := "Left";
            Backend.p_active := false; Backend.p_default := false;
            Backend.p_colours_required := 0 |};
         {| Backend.p_data := "2"; Backend.p_label := "Right";
            Backend.p_active := true; Backend.p_default := true;
            Backend.p_colours_required := 0 |} ];
     Backend.colours := []; Backend.colours_required := 0 |}.

Definition static : Backend.Option :=
  {| Backend.o_class := Backend.EffectOption; Backend.uid := "static";
     Backend.active := false; Backend.value := 0;
     Backend.parameters := [];
     Backend.colours := ["#00FF00"]; Backend.colours_required := 1 |}.

Definition brightness : Backend.Option :=
  {| Backend.o_class := Backend.SliderOption; Backend.uid := "brightness";
     Backend.active := true; Backend.value := 75;
     Backend.parameters := [];
     Backend.colours := []; Backend.colours_required := 0 |}.

Definition main_zone : Backend.Zone :=
  {| Backend.zone_id := "main"; Backend.options := [brightness; static; wave] |}.

Definition idle_zone : Backend.Zone :=
  {| Backend.zone_id := "logo"; Backend.options := [brightness; static] |}.

Definition keyboard : Backend.DeviceItem :=
  {| Backend.name := "Razer BlackWidow"; Backend.serial := "XX0001";
     Backend.form_factor := "keyboard"; Backend.real_image := "";
     Backend.zones := [main_zone]; Backend.backend := None |}.

(** The world: how many device queries the lighting daemon has answered.
    The daemon reports no device on its first answer (it is still
    scanning the bus) and the keyboard from then on. *)
Definition daemon : Backend.t nat :=
  {| Backend.backend_id := "openrazer";
     Backend.b_name := "OpenRazer";
     Backend.logo := "openrazer.svg";
     Backend.version := "3.6.1";
     Backend.project_url := "https://openrazer.github.io";
     Backend.bug_url := "https://github.com/openrazer/openrazer/issues";
     Backend.releases_url := "https://github.com/openrazer/openrazer/releases";
     Backend.license := "GPLv2";
     Backend.init := fun w => Py.Returns true w;
     Backend.get_devices := fun w =>
       (Backend.PyList (match w with O => [] | S _ => [keyboard] end), S w);
     Backend.get_device_by_name := fun name w =>
       (if String.eqb name "Razer BlackWidow"
        then Backend.PyDevice keyboard else Backend.PyNone, w);
     Backend.get_device_by_serial := fun serial w =>
       (if String.eqb serial "XX0001"
        then Backend.PyDevice keyboard else Backend.PyNone, w) |}.

Definition cpu_info (w : nat) : Undervolt.CpuInfo :=
  {| Undervolt.brand := "Intel(R) Core(TM) i7-9750H";
     Undervolt.vendor_id := "GenuineIntel" |}.

Definition undervolt : Backend.t nat := Undervolt.UndervoltBackend cpu_info.

(** A Middleman whose two backends are running, before any device
    query. *)
Definition running : @Middleman.State nat unit :=
  {| Middleman.self :=
       {| Middleman.backends := [undervolt; daemon];
          Middleman.bad_init := [];
          Middleman.not_installed := [];
          Middleman.troubleshooters := ∅;
          Middleman.import_errors := ∅;
          Middleman.device_cache := [] |};
     Middleman.world := 0%nat;
     Middleman.calls := [] |}.

(** The same, once the daemon has finished scanning. *)
Definition scanned : @Middleman.State nat unit :=
  Middleman.with_world 1%nat running.

(** An environment in which the OpenRazer module is missing and the
    undervolt module loads. *)
Definition env_no_openrazer : @Middleman.Env nat :=
  {| Middleman.import_openrazer :=
       Some (Py.ModuleNotFoundError "No module named 'openrazer'");
     Middleman.openrazer_construct := fun w => Py.Returns tt w;
     Middleman.openrazer_version := "";
     Middleman.openrazer_init := fun w => Py.Returns true w;
     Middleman.openrazer_get_devices := fun w => (Backend.PyNone, w);
     Middleman.openrazer_get_device_by_name := fun _ w => (Backend.PyNone, w);
     Middleman.openrazer_get_device_by_serial := fun _ w => (Backend.PyNone, w);
     Middleman.import_undervolt := None |}.

(** An environment in which the OpenRazer module loads but its daemon
    cannot be reached: [init()] raises. *)
Definition env_daemon_down : @Middleman.Env nat :=
  {| Middleman.import_openrazer := None;
     Middleman.openrazer_construct := fun w => Py.Returns tt w;
     Middleman.openrazer_version := "3.6.1";
     Middleman.openrazer_init := fun w =>
       Py.Raises (Py.OtherException "DaemonNotFound" "daemon is not running") w;
     Middleman.openrazer_get_devices := fun w => (Backend.PyNone, w);
     Middleman.openrazer_get_device_by_name := fun _ w => (Backend.PyNone, w);
     Middleman.openrazer_get_device_by_serial := fun _ w => (Backend.PyNone, w);
     Middleman.import_undervolt := None |}.

(** A rendering of exceptions, standing for
    [common.get_exception_as_string]. *)
Definition exception_as_string (e : Py.exn) : string :=
  match e with
  | Py.ImportError msg => "ImportError: " ++ msg
  | Py.ModuleNotFoundError msg => "ModuleNotFoundError: " ++ msg
  | Py.NameError msg => "NameError: " ++ msg
  | Py.KeyError key => "KeyError: " ++ key
  | Py.OtherException cls msg => cls ++ ": " ++ msg
  | Py.KeyboardInterrupt => "KeyboardInterrupt"
  | Py.SystemExit code => "SystemExit: " ++ code
  end.

(** [Middleman()] in a world. *)
Definition fresh (w : nat) : @Middleman.State nat unit :=
  {| Middleman.self := Middleman.new; Middleman.world := w;
     Middleman.calls := [] |}.

Definition laptop : @Undervolt.Process nat :=
  {| Undervolt.self := undervolt;
     Undervolt.sliders :=
       [ Undervolt.slider_apply (-50) (Undervolt.VoltageSlider_new "Core Offset");
         Undervolt.VoltageSlider_new "Cache Offset" ];
     Undervolt.hardware := 0%nat;
     Undervolt.debug_log := [] |}.

End Examples.

(** ** Vocabulary of the properties of the registry and the cache *)

Module Outcomes.

Section Outcomes.
Context {World Troubleshooter : Type}.

(** How the OpenRazer attempt of [init] ends in world [w]: with the
    exception raised by the import, the constructor or [init()], or with
    what [init()] returned. *)
Definition openrazer_result (env : @Middleman.Env World) (w : World) : Py.exn + bool :=
  match Middleman.import_openrazer env with
  | Some e => inl e
  | None =>
      match Middleman.openrazer_construct env w with
      | Py.Raises e _ => inl e
      | Py.Returns _ w1 =>
          match Middleman.openrazer_init env w1 with
          | Py.Raises e _ => inl e
          | Py.Returns ok _ => inr ok
          end
      end
  end.

(** Every exception raised while [init] runs in world [w] derives from
    [Exception]: the one that ends the OpenRazer attempt, if any, and the
    one of the undervolt import, if any. *)
Definition ordinary_run (env : @Middleman.Env World) (w : World) : bool :=
  match openrazer_result env w with
  | inl e => Py.is_Exception e
  | inr _ => true
  end
  && match Middleman.import_undervolt env with
     | Some e => Py.is_Exception e
     | None => true
     end.

(** The world after the OpenRazer constructor and [init()] ran, each if
    [init] got to it; the undervolt constructor and [init()] leave the
    world as it is. *)
Definition world_after_init (env : @Middleman.Env World) (w : World) : World :=
  match Middleman.import_openrazer env with
  | Some _ => w
  | None =>
      match Middleman.openrazer_construct env w with
      | Py.Raises _ w1 => w1
      | Py.Returns _ w1 =>
          match Middleman.openrazer_init env w1 with
          | Py.Returns _ w2 | Py.Raises _ w2 => w2
          end
      end
  end.

(** The devices that the backends of [bs] report when each is asked
    once, one after the other from world [w]: the lists they answer
    with, in list order, each device with its [backend] attribute set;
    an answer that is not a list counts for nothing. *)
Fixpoint devices_reported (bs : list (Backend.t World)) (w : World)
  : list Backend.DeviceItem :=
  match bs with
  | [] => []
  | b :: rest =>
      match Backend.get_devices b w with
      | (Backend.PyList l, w') =>
          map (Middleman.set_backend b) l ++ devices_reported rest w'
      | (_, w') => devices_reported rest w'
      end
  end.

(** The device's [backend] attribute refers to a backend of the list. *)
Definition owned (bs : list (Backend.t World)) (d : Backend.DeviceItem) : Prop :=
  exists b, In b bs /\ Backend.backend d = Some (Backend.backend_id b).

(** Two Middleman objects that differ in the device cache at most. *)
Definition same_registry (m m' : @Middleman.t World Troubleshooter) : Prop :=
  Middleman.backends m' = Middleman.backends m
  /\ Middleman.bad_init m' = Middleman.bad_init m
  /\ Middleman.not_installed m' = Middleman.not_installed m
  /\ Middleman.troubleshooters m' = Middleman.troubleshooters m
  /\ Middleman.import_errors m' = Middleman.import_errors m.

End Outcomes.

End Outcomes.

(** ** Vocabulary of the properties of the colour setters *)

Module Recolour.

(** [colour_pos] is a valid index of the list: it is in
    [-len(l), len(l)). *)
Definition valid_index {A} (l : list A) (i : Z) : bool :=
  (- Z.of_nat (length l) <=? i)%Z && (i <? Z.of_nat (length l))%Z.

(** The position a valid index stands for. *)
Definition position {A} (l : list A) (i : Z) : nat :=
  Z.to_nat (i mod Z.of_nat (length l)).

(** What [set_colour_for_active_effect_zone] leaves of a zone, the calls
    it makes, and whether it returns, when run on the zone alone. *)
Definition zone_after (hex_value : string) (colour_pos : Z) (zone : Backend.Zone)
  : Backend.Zone :=
  match Replay.set_colour_for_active_effect_zone hex_value colour_pos (zone, []) with
  | Py.Returns _ (zone', _) | Py.Raises _ (zone', _) => zone'
  end.

Definition zone_calls (hex_value : string) (colour_pos : Z) (zone : Backend.Zone)
  : list Replay.Action :=
  match Replay.set_colour_for_active_effect_zone hex_value colour_pos (zone, []) with
  | Py.Returns _ (_, log) | Py.Raises _ (_, log) => log
  end.

Definition zone_returns (hex_value : string) (colour_pos : Z) (zone : Backend.Zone)
  : bool :=
  match Replay.set_colour_for_active_effect_zone hex_value colour_pos (zone, []) with
  | Py.Returns _ _ => true
  | Py.Raises _ _ => false
  end.

(** The [apply] calls that re-applying the active effect of each zone
    makes. *)
Definition active_effect_calls (zones : list Backend.Zone) : list Replay.Action :=
  flat_map
    (fun zone =>
       match Middleman.get_active_effect zone with
       | Some opt => Replay._apply_option_with_same_params opt
       | None => []
       end)
    zones.

End Recolour.

(** ** More of the small installation *)

Module Scenarios.

(** An effect with two parameters flagged active, against the
    convention. *)
Definition reactive : Backend.Option :=
  {| Backend.o_class := Backend.EffectOption; Backend.uid := "reactive";
     Backend.active := true; Backend.value := 0;
     Backend.parameters :=
       [ {| Backend.p_data := "slow"; Backend.p_label := "Slow";
            Backend.p_active := true; Backend.p_default := false;
            Backend.p_colours_required := 1 |};
         {| Backend.p_data := "medium"; Backend.p_label := "Medium";
            Backend.p_active := false; Backend.p_default := true;
            Backend.p_colours_required := 1 |};
         {| Backend.p_data := "fast"; Backend.p_label := "Fast";
            Backend.p_active := true; Backend.p_default := false;
            Backend.p_colours_required := 1 |} ];
     Backend.colours := ["#FF0000"; "#0000FF"]; Backend.colours_required := 1 |}.

(** A zone whose active effect is [reactive], after an inactive one. *)
Definition logo_zone : Backend.Zone :=
  {| Backend.zone_id := "logo";
     Backend.options := [Examples.brightness; Examples.static; reactive] |}.

(** The dictionary of py-cpuinfo 9: the brand is under ["brand_raw"],
    there is no ["brand"]. *)
Definition cpuinfo_9 (w : nat) : gmap string string :=
  <["brand_raw" := "Intel(R) Core(TM) i7-9750H"]>
    (<["vendor_id_raw" := "GenuineIntel"]> ∅).

(** The dictionary of py-cpuinfo 5, which has ["brand"]. *)
Definition cpuinfo_5 (w : nat) : gmap string string :=
  Undervolt.as_dict (Examples.cpu_info w).

(** An environment in which the user interrupts the start-up while the
    OpenRazer backend initialises: its [init()] raises
    KeyboardInterrupt. *)
Definition env_interrupted : @Middleman.Env nat :=
  {| Middleman.import_openrazer := None;
     Middleman.openrazer_construct := fun w => Py.Returns tt w;
     Middleman.openrazer_version := "3.6.1";
     Middleman.openrazer_init := fun w => Py.Raises Py.KeyboardInterrupt (S w);
     Middleman.openrazer_get_devices := fun w => (Backend.PyNone, w);
     Middleman.openrazer_get_device_by_name := fun _ w => (Backend.PyNone, w);
     Middleman.openrazer_get_device_by_serial := fun _ w => (Backend.PyNone, w);
     Middleman.import_undervolt := None |}.

(** An environment in which the OpenRazer daemon answers after a while
    (the world counts its answers) and refuses: [init()] returns
    false. *)
Definition env_refused : @Middleman.Env nat :=
  {| Middleman.import_openrazer := None;
     Middleman.openrazer_construct := fun w => Py.Returns tt (S w);
     Middleman.openrazer_version := "3.6.1";
     Middleman.openrazer_init := fun w => Py.Returns false (S w);
     Middleman.openrazer_get_devices := fun w => (Backend.PyNone, w);
     Middleman.openrazer_get_device_by_name := fun _ w => (Backend.PyNone, w);
     Middleman.openrazer_get_device_by_serial := fun _ w => (Backend.PyNone, w);
     Middleman.import_undervolt :=
       Some (Py.OtherException "OSError" "cannot read /proc/cpuinfo") |}.

(** A mouse with a zone without active effect, the logo zone, and the
    main zone of the keyboard, whose active effect has no colours. *)
Definition mouse : Backend.DeviceItem :=
  {| Backend.name := "Razer DeathAdder"; Backend.serial := "XX0002";
     Backend.form_factor := "mouse"; Backend.real_image := "";
     Backend.zones := [Examples.idle_zone; logo_zone; Examples.main_zone];
     Backend.backend := Some "openrazer" |}.

End Scenarios.

(** ** Properties of the queries on zones and options *)

Section Queries.

Lemma get_active_effect_loop_find (l : list Backend.Option) :
  Middleman.get_active_effect_loop l = List.find Props.active_effect l.
Proof.
  induction l as [|o l IH]; simpl; [reflexivity|].
  unfold Props.active_effect at 1. now rewrite IH.
Qed.

Lemma get_active_effect_loop_split (l : list Backend.Option) (o : Backend.Option) :
  Middleman.get_active_effect_loop l = Some o ->
  exists pre post,
    l = pre ++ o :: post
    /\ Props.active_effect o = true
    /\ Forall (fun x => Props.active_effect x = false) pre.
Proof.
  induction l as [|x l IH]; simpl; [discriminate|].
  destruct (Backend.is_EffectOption x && Backend.active x) eqn:E.
  - intros [= <-]. exists [], l. repeat split; [exact E | constructor].
  - intros H. destruct (IH H) as (pre & post & -> & Ho & Hpre).
    exists (x :: pre), post. repeat split; [exact Ho|].
    constructor; [exact E | exact Hpre].
Qed.

Lemma get_active_effect_loop_none (l : list Backend.Option) :
  Forall (fun x => Props.active_effect x = false) l ->
  Middleman.get_active_effect_loop l = None.
Proof.
  induction 1 as [|x l Hx _ IH]; simpl; [reflexivity|].
  unfold Props.active_effect in Hx. now rewrite Hx.
Qed.

Lemma filter_inactive (l : list Backend.Option) :
  Forall (fun x => Props.active_effect x = false) l ->
  List.filter Props.active_effect l = [].
Proof.
  induction 1 as [|x l Hx _ IH]; simpl; [reflexivity|]. now rewrite Hx.
Qed.

Lemma get_active_effect_loop_unique (l : list Backend.Option) (o : Backend.Option) :
  In o l ->
  Props.active_effect o = true ->
  length (List.filter Props.active_effect l) = 1%nat ->
  Middleman.get_active_effect_loop l = Some o.
Proof.
  intros Hin Ho Hone.
  destruct (Middleman.get_active_effect_loop l) as [o'|] eqn:E.
  - destruct (get_active_effect_loop_split _ _ E) as (pre & post & -> & Ho' & Hpre).
    rewrite List.filter_app, (filter_inactive _ Hpre) in Hone.
    simpl in Hone. rewrite Ho' in Hone. simpl in Hone.
    apply List.in_app_or in Hin. destruct Hin as [Hin|[<-|Hin]].
    + rewrite List.Forall_forall in Hpre. specialize (Hpre _ Hin). congruence.
    + reflexivity.
    + assert (Hf : In o (List.filter Props.active_effect post))
        by (apply List.filter_In; split; assumption).
      destruct (List.filter Props.active_effect post); [destruct Hf | discriminate].
  - rewrite get_active_effect_loop_find in E.
    pose proof (List.find_none _ _ E _ Hin). congruence.
Qed.

(** C6. [get_active_effect zone] is the first option of [zone.options]
    that is an EffectOption with its active flag set: whatever it returns
    is such an option with no such option before it; it returns [None]
    when the zone has no active EffectOption, and the active EffectOption
    when the zone has exactly one. *)
Theorem get_active_effect_first_active (zone : Backend.Zone) :
  Middleman.get_active_effect zone
    = List.find Props.active_effect (Backend.options zone)
  /\ (forall o, Middleman.get_active_effect zone = Some o ->
        exists pre post,
          Backend.options zone = pre ++ o :: post
          /\ Props.active_effect o = true
          /\ Forall (fun x => Props.active_effect x = false) pre)
  /\ (Forall (fun x => Props.active_effect x = false) (Backend.options zone) ->
        Middleman.get_active_effect zone = None)
  /\ (forall o, In o (Backend.options zone) ->
        Props.active_effect o = true ->
        length (List.filter Props.active_effect (Backend.options zone)) = 1%nat ->
        Middleman.get_active_effect zone = Some o).
Proof.
  unfold Middleman.get_active_effect. split; [|split; [|split]].
  - apply get_active_effect_loop_find.
  - apply get_active_effect_loop_split.
  - apply get_active_effect_loop_none.
  - intros o. apply get_active_effect_loop_unique.
Qed.

Lemma get_active_effect_first_active_witness :
  Middleman.get_active_effect Examples.main_zone = Some Examples.wave
  /\ Middleman.get_active_effect Examples.idle_zone = None.
Proof.
  split.
  - apply (proj2 (proj2 (proj2
             (get_active_effect_first_active Examples.main_zone))) Examples.wave).
    + simpl. right. right. left. reflexivity.
    + reflexivity.
    + reflexivity.
  - apply (proj1 (proj2 (proj2
             (get_active_effect_first_active Examples.idle_zone)))).
    simpl. repeat constructor.
Defined.

Lemma get_active_parameter_loop_find (l : list Backend.Param) :
  Middleman.get_active_parameter_loop l = List.find Backend.p_active l.
Proof.
  induction l as [|p l IH]; simpl; [reflexivity|]. now rewrite IH.
Qed.

Lemma get_default_parameter_loop_find (l : list Backend.Param) :
  Middleman.get_default_parameter_loop l = List.find Backend.p_default l.
Proof.
  induction l as [|p l IH]; simpl; [reflexivity|]. now rewrite IH.
Qed.

(** C8. [get_default_parameter option] is the first parameter whose
    default flag is set and, when no parameter is marked default, the
    first parameter of the list (nothing for an empty list);
    [get_active_parameter option] is the first parameter whose active
    flag is set. *)
Theorem get_default_parameter_first_default_or_first (opt : Backend.Option) :
  Middleman.get_default_parameter opt
    = match List.find Backend.p_default (Backend.parameters opt) with
      | Some p => Some p
      | None => List.hd_error (Backend.parameters opt)
      end
  /\ Middleman.get_active_parameter opt
    = List.find Backend.p_active (Backend.parameters opt).
Proof.
  unfold Middleman.get_default_parameter, Middleman.get_active_parameter.
  rewrite get_default_parameter_loop_find, get_active_parameter_loop_find.
  split; [|reflexivity].
  destruct (Backend.parameters opt) as [|p l]; reflexivity.
Qed.

Example get_default_parameter_examples :
  Middleman.get_default_parameter Examples.wave
    = Backend.parameters Examples.wave !! 1%nat
  /\ Middleman.get_active_parameter Examples.wave
     = Backend.parameters Examples.wave !! 1%nat
  /\ Middleman.get_default_parameter Examples.brightness = None
  /\ Middleman.get_active_parameter Examples.brightness = None.
Proof. repeat split. Qed.

End Queries.

(** ** Properties of the device cache *)

Section Cache.
Context {World Troubleshooter : Type}.

Local Abbreviation State := (@Middleman.State World Troubleshooter).
Local Abbreviation get_devices_calls bs :=
  (map (fun b : Backend.t World => Middleman.EvGetDevices (Backend.backend_id b)) bs).

Lemma reload_loop_calls (bs : list (Backend.t World)) (s : State) :
  Middleman.calls (Middleman.reload_loop bs s)
    = Middleman.calls s ++ get_devices_calls bs.
Proof.
  revert s. induction bs as [|b bs IH]; intros s; simpl.
  - now rewrite List.app_nil_r.
  - destruct (Backend.get_devices b (Middleman.world s)) as [v w].
    destruct v; rewrite IH; simpl; now rewrite <- List.app_assoc.
Qed.

Lemma reload_loop_backends (bs : list (Backend.t World)) (s : State) :
  Middleman.backends (Middleman.self (Middleman.reload_loop bs s))
    = Middleman.backends (Middleman.self s).
Proof.
  revert s. induction bs as [|b bs IH]; intros s; simpl; [reflexivity|].
  destruct (Backend.get_devices b (Middleman.world s)) as [v w].
  destruct v; now rewrite IH.
Qed.

Lemma reload_loop_world (bs : list (Backend.t World)) (s : State) :
  Middleman.world (Middleman.reload_loop bs s)
    = Props.world_after_get_devices bs (Middleman.world s).
Proof.
  revert s. induction bs as [|b bs IH]; intros s; simpl; [reflexivity|].
  destruct (Backend.get_devices b (Middleman.world s)) as [v w].
  destruct v; now rewrite IH.
Qed.

(** The loop depends on the Middleman object and the world only; the
    record of calls is carried along. *)
Lemma reload_loop_ignores_calls (bs : list (Backend.t World)) (s1 s2 : State) :
  Middleman.self s1 = Middleman.self s2 ->
  Middleman.world s1 = Middleman.world s2 ->
  Middleman.self (Middleman.reload_loop bs s1)
    = Middleman.self (Middleman.reload_loop bs s2)
  /\ Middleman.world (Middleman.reload_loop bs s1)
    = Middleman.world (Middleman.reload_loop bs s2).
Proof.
  revert s1 s2. induction bs as [|b bs IH]; intros s1 s2 Hm Hw; simpl.
  - now split.
  - rewrite Hw.
    destruct (Backend.get_devices b (Middleman.world s2)) as [v w].
    destruct v; apply IH; simpl; try reflexivity; now rewrite Hm.
Qed.

Lemma reload_if_loaded (s : State) :
  Middleman.device_cache (Middleman.self s) <> [] ->
  Middleman._reload_device_cache_if_empty s = s.
Proof.
  unfold Middleman._reload_device_cache_if_empty.
  destruct (Middleman.device_cache (Middleman.self s)); [congruence | reflexivity].
Qed.

Lemma reload_if_empty (s : State) :
  Middleman.device_cache (Middleman.self s) = [] ->
  Middleman._reload_device_cache_if_empty s
    = Middleman.reload_loop (Middleman.backends (Middleman.self s)) s.
Proof.
  unfold Middleman._reload_device_cache_if_empty. now intros ->.
Qed.

(** The refill loop, in full: every backend of the list is asked once,
    in list order, the world going from one to the next; what they
    report is appended to the cache, and each call is recorded. *)
Lemma reload_loop_state (bs : list (Backend.t World)) (s : State) :
  Middleman.reload_loop bs s
  = {| Middleman.self :=
         Middleman.set_device_cache
           (Middleman.device_cache (Middleman.self s)
            ++ Outcomes.devices_reported bs (Middleman.world s))
           (Middleman.self s);
       Middleman.world := Props.world_after_get_devices bs (Middleman.world s);
       Middleman.calls := Middleman.calls s ++ get_devices_calls bs |}.
Proof.
  revert s. induction bs as [|b bs IH]; intros s; simpl.
  - destruct s as [[] ? ?]; simpl.
    unfold Middleman.set_device_cache; simpl. now rewrite !List.app_nil_r.
  - destruct (Backend.get_devices b (Middleman.world s)) as [v w].
    destruct v; rewrite IH; simpl; unfold Middleman.set_device_cache; simpl;
      rewrite <- ?List.app_assoc; reflexivity.
Qed.

Lemma get_devices_refill (s : State) :
  Middleman.device_cache (Middleman.self s) = [] ->
  Middleman.get_devices s
  = (Outcomes.devices_reported (Middleman.backends (Middleman.self s))
       (Middleman.world s),
     {| Middleman.self :=
          Middleman.set_device_cache
            (Outcomes.devices_reported (Middleman.backends (Middleman.self s))
               (Middleman.world s))
            (Middleman.self s);
        Middleman.world :=
          Props.world_after_get_devices (Middleman.backends (Middleman.self s))
            (Middleman.world s);
        Middleman.calls :=
          Middleman.calls s
          ++ get_devices_calls (Middleman.backends (Middleman.self s)) |}).
Proof.
  intros H. unfold Middleman.get_devices.
  rewrite (reload_if_empty _ H), reload_loop_state, H. reflexivity.
Qed.

(** C3, as amended. When the first [get_devices()] returns a non-empty
    list, a second call with no invalidation in between returns the same
    list, calls no backend and leaves the state as it is, even if the
    hardware changed in between: nothing is appended twice. When the
    first call returns the empty list, the cache is still empty, and the
    second call asks every backend of the list again, once each and in
    list order, and returns what they report then, which it also leaves
    in the cache. *)
Theorem get_devices_twice (s : State) :
  let l1 := fst (Middleman.get_devices s) in
  let s1 := snd (Middleman.get_devices s) in
  let bs := Middleman.backends (Middleman.self s) in
  (l1 <> [] ->
     Middleman.get_devices s1 = (l1, s1)
     /\ forall w', Middleman.get_devices (Middleman.with_world w' s1)
                   = (l1, Middleman.with_world w' s1))
  /\ (l1 = [] ->
        Middleman.device_cache (Middleman.self s1) = []
        /\ Middleman.backends (Middleman.self s1) = bs
        /\ Middleman.get_devices s1
           = (Outcomes.devices_reported bs (Middleman.world s1),
              {| Middleman.self :=
                   Middleman.set_device_cache
                     (Outcomes.devices_reported bs (Middleman.world s1))
                     (Middleman.self s1);
                 Middleman.world :=
                   Props.world_after_get_devices bs (Middleman.world s1);
                 Middleman.calls := Middleman.calls s1 ++ get_devices_calls bs |})
        /\ forall w',
             Middleman.get_devices (Middleman.with_world w' s1)
             = (Outcomes.devices_reported bs w',
                {| Middleman.self :=
                     Middleman.set_device_cache
                       (Outcomes.devices_reported bs w') (Middleman.self s1);
                   Middleman.world := Props.world_after_get_devices bs w';
                   Middleman.calls := Middleman.calls s1 ++ get_devices_calls bs |})).
Proof.
  assert (Hbs : Middleman.backends (Middleman.self (snd (Middleman.get_devices s)))
                = Middleman.backends (Middleman.self s)).
  { unfold Middleman.get_devices, Middleman._reload_device_cache_if_empty; simpl.
    destruct (Py.truthy _); [reflexivity | apply reload_loop_backends]. }
  assert (Hl : Middleman.device_cache (Middleman.self (snd (Middleman.get_devices s)))
               = fst (Middleman.get_devices s)) by reflexivity.
  destruct (Middleman.get_devices s) as [l1 s1]. simpl in Hbs, Hl. cbv zeta; simpl.
  split; intros H.
  - unfold Middleman.get_devices.
    split; [|intros w']; rewrite reload_if_loaded; simpl; rewrite ?Hl; auto.
  - rewrite H in Hl. split; [exact Hl|]. split; [exact Hbs|]. split.
    + rewrite (get_devices_refill _ Hl), Hbs. reflexivity.
    + intros w'. rewrite (get_devices_refill (Middleman.with_world w' s1) Hl).
      simpl. rewrite Hbs. reflexivity.
Qed.

(** C4. [invalidate_cache()] followed by [get_devices()] asks each
    backend of the backends list for its devices exactly once, in list
    order: the world goes through the [get_devices()] of each backend
    once, the list returned (and left in the cache) is what they
    reported, one after the other, and the calls recorded are those and
    no other. *)
Theorem invalidate_then_get_devices_queries_each_once (s : State) :
  let bs := Middleman.backends (Middleman.self s) in
  Middleman.get_devices (Middleman.invalidate_cache s)
  = (Outcomes.devices_reported bs (Middleman.world s),
     {| Middleman.self :=
          Middleman.set_device_cache
            (Outcomes.devices_reported bs (Middleman.world s)) (Middleman.self s);
        Middleman.world := Props.world_after_get_devices bs (Middleman.world s);
        Middleman.calls := Middleman.calls s ++ get_devices_calls bs |}).
Proof.
  cbv zeta.
  rewrite (get_devices_refill (Middleman.invalidate_cache s) eq_refl).
  reflexivity.
Qed.

(** C5, as amended. Both methods clear the cache, but only
    [invalidate_cache()] stops there, without calling any backend;
    [reload_device_cache()] goes on to refill the cache at once, with one
    [get_devices()] call per backend: it does what a [get_devices()]
    after [invalidate_cache()] does. *)
Theorem invalidate_vs_reload (s : State) :
  Middleman.device_cache (Middleman.self (Middleman.invalidate_cache s)) = []
  /\ Middleman.calls (Middleman.invalidate_cache s) = Middleman.calls s
  /\ Middleman.world (Middleman.invalidate_cache s) = Middleman.world s
  /\ Middleman.reload_device_cache s
     = Middleman.reload_loop (Middleman.backends (Middleman.self s))
         (Middleman.invalidate_cache s)
  /\ Middleman.calls (Middleman.reload_device_cache s)
     = Middleman.calls s
       ++ get_devices_calls (Middleman.backends (Middleman.self s))
  /\ Middleman.reload_device_cache s
     = snd (Middleman.get_devices (Middleman.invalidate_cache s)).
Proof.
  assert (E : Middleman.reload_device_cache s
              = Middleman.reload_loop (Middleman.backends (Middleman.self s))
                  (Middleman.invalidate_cache s)).
  { unfold Middleman.reload_device_cache. now rewrite reload_if_empty. }
  repeat split; try reflexivity.
  rewrite E, reload_loop_calls. reflexivity.
Qed.

End Cache.

Lemma get_devices_twice_witness :
  Middleman.get_devices (snd (Middleman.get_devices Examples.scanned))
    = (fst (Middleman.get_devices Examples.scanned),
       snd (Middleman.get_devices Examples.scanned))
  /\ fst (Middleman.get_devices (snd (Middleman.get_devices Examples.running)))
     = Outcomes.devices_reported [Examples.undervolt; Examples.daemon] 1%nat.
Proof.
  split.
  - apply (proj1 (get_devices_twice Examples.scanned)). vm_compute. discriminate.
  - rewrite (proj1 (proj2 (proj2
               (proj2 (get_devices_twice Examples.running) eq_refl)))).
    reflexivity.
Defined.

(** C3 as stated fails: with the daemon still scanning at the first call,
    the first [get_devices()] returns the empty list, the cache stays
    empty, and the second call, right after it, returns the keyboard. *)
Lemma get_devices_twice_counterexample :
  fst (Middleman.get_devices Examples.running) = []
  /\ fst (Middleman.get_devices (snd (Middleman.get_devices Examples.running)))
     = [Middleman.set_backend Examples.daemon Examples.keyboard]
  /\ fst (Middleman.get_devices Examples.running)
     <> fst (Middleman.get_devices (snd (Middleman.get_devices Examples.running))).
Proof.
  split; [|split].
  - vm_compute. reflexivity.
  - vm_compute. reflexivity.
  - vm_compute. discriminate.
Qed.

(** C5 as stated fails: on a Middleman whose daemon reports the keyboard,
    [invalidate_cache()] leaves the cache empty and calls nothing, while
    [reload_device_cache()] leaves the keyboard in it and has called both
    backends. *)
Lemma invalidate_vs_reload_counterexample :
  Middleman.device_cache (Middleman.self (Middleman.invalidate_cache Examples.scanned))
    = []
  /\ Middleman.device_cache
       (Middleman.self (Middleman.reload_device_cache Examples.scanned))
     = [Middleman.set_backend Examples.daemon Examples.keyboard]
  /\ Middleman.calls (Middleman.invalidate_cache Examples.scanned) = []
  /\ Middleman.calls (Middleman.reload_device_cache Examples.scanned)
     = [Middleman.EvGetDevices "undervolt"; Middleman.EvGetDevices "openrazer"]
  /\ Middleman.invalidate_cache Examples.scanned
     <> Middleman.reload_device_cache Examples.scanned.
Proof.
  repeat split; try (vm_compute; reflexivity).
  intros H.
  apply (f_equal (fun s => Middleman.calls s)) in H.
  vm_compute in H. discriminate.
Qed.

(** ** Properties of the device lookups *)

Section Lookup.
Context {World Troubleshooter : Type}.

Local Abbreviation State := (@Middleman.State World Troubleshooter).
Local Abbreviation ask_name name :=
  (fun (b : Backend.t World) => Backend.get_device_by_name b name).
Local Abbreviation ask_serial serial :=
  (fun (b : Backend.t World) => Backend.get_device_by_serial b serial).
Local Abbreviation name_calls name bs :=
  (map (fun b : Backend.t World =>
          Middleman.EvGetDeviceByName (Backend.backend_id b) name) bs).
Local Abbreviation serial_calls serial bs :=
  (map (fun b : Backend.t World =>
          Middleman.EvGetDeviceBySerial (Backend.backend_id b) serial) bs).

(** Either every backend misses, or some backend is the first to answer
    with a [DeviceItem]. *)
Lemma miss_or_hit (ask : Props.query) (bs : list (Backend.t World)) (w : World) :
  (exists w', Props.all_miss ask bs w w')
  \/ (exists pre b post w1 d w2,
        bs = pre ++ b :: post
        /\ Props.all_miss ask pre w w1
        /\ ask b w1 = (Backend.PyDevice d, w2)).
Proof.
  revert w. induction bs as [|b bs IH]; intros w.
  - left. exists w. constructor.
  - destruct (ask b w) as [v w1] eqn:E.
    destruct (Props.is_DeviceItem v) eqn:Hv.
    + destruct v; try discriminate. right.
      exists [], b, bs, w, d, w1. repeat split; [constructor | exact E].
    + destruct (IH w1) as [[w' Hm]|(pre & b' & post & w2 & d & w3 & -> & Hm & Hb)].
      * left. exists w'. econstructor; eassumption.
      * right. exists (b :: pre), b', post, w2, d, w3.
        repeat split; [econstructor; eassumption | exact Hb].
Qed.

Lemma name_loop_miss (name : string) (bs : list (Backend.t World)) (s : State) w' :
  Props.all_miss (ask_name name) bs (Middleman.world s) w' ->
  Middleman.get_device_by_name_loop name bs s
    = (None,
       {| Middleman.self := Middleman.self s; Middleman.world := w';
          Middleman.calls := Middleman.calls s ++ name_calls name bs |}).
Proof.
  revert s. induction bs as [|b bs IH]; intros s H; inversion H; subst; simpl.
  - destruct s; simpl. now rewrite List.app_nil_r.
  - match goal with E : Backend.get_device_by_name _ _ _ = _ |- _ => rewrite E end.
    destruct v; try discriminate;
      erewrite IH by (simpl; eassumption); simpl;
      now rewrite <- List.app_assoc.
Qed.

Lemma name_loop_hit (name : string) pre b post (s : State) w1 d w2 :
  Props.all_miss (ask_name name) pre (Middleman.world s) w1 ->
  Backend.get_device_by_name b name w1 = (Backend.PyDevice d, w2) ->
  Middleman.get_device_by_name_loop name (pre ++ b :: post) s
    = (Some d,
       {| Middleman.self := Middleman.self s; Middleman.world := w2;
          Middleman.calls := Middleman.calls s ++ name_calls name (pre ++ [b]) |}).
Proof.
  revert s. induction pre as [|p pre IH]; intros s H Hb; inversion H; subst; simpl.
  - rewrite Hb. reflexivity.
  - match goal with E : Backend.get_device_by_name p _ _ = _ |- _ => rewrite E end.
    destruct v; try discriminate;
      erewrite IH by (simpl; eassumption); simpl;
      now rewrite <- List.app_assoc.
Qed.

Lemma serial_loop_miss (serial : string) (bs : list (Backend.t World)) (s : State) w' :
  Props.all_miss (ask_serial serial) bs (Middleman.world s) w' ->
  Middleman.get_device_by_serial_loop serial bs s
    = (None,
       {| Middleman.self := Middleman.self s; Middleman.world := w';
          Middleman.calls := Middleman.calls s ++ serial_calls serial bs |}).
Proof.
  revert s. induction bs as [|b bs IH]; intros s H; inversion H; subst; simpl.
  - destruct s; simpl. now rewrite List.app_nil_r.
  - match goal with E : Backend.get_device_by_serial _ _ _ = _ |- _ => rewrite E end.
    destruct v; try discriminate;
      erewrite IH by (simpl; eassumption); simpl;
      now rewrite <- List.app_assoc.
Qed.

Lemma serial_loop_hit (serial : string) pre b post (s : State) w1 d w2 :
  Props.all_miss (ask_serial serial) pre (Middleman.world s) w1 ->
  Backend.get_device_by_serial b serial w1 = (Backend.PyDevice d, w2) ->
  Middleman.get_device_by_serial_loop serial (pre ++ b :: post) s
    = (Some d,
       {| Middleman.self := Middleman.self s; Middleman.world := w2;
          Middleman.calls := Middleman.calls s ++ serial_calls serial (pre ++ [b]) |}).
Proof.
  revert s. induction pre as [|p pre IH]; intros s H Hb; inversion H; subst; simpl.
  - rewrite Hb. reflexivity.
  - match goal with E : Backend.get_device_by_serial p _ _ = _ |- _ => rewrite E end.
    destruct v; try discriminate;
      erewrite IH by (simpl; eassumption); simpl;
      now rewrite <- List.app_assoc.
Qed.

(** C7. [get_device_by_name] and [get_device_by_serial] ask the backends
    in list order. When every backend answers with something that is not
    a [DeviceItem], all of them have been asked and the result is [None]
    (a value, not an exception). Otherwise the result is the
    [DeviceItem] of the first backend that answers with one, and the
    backends after it are not asked. One of the two cases always
    applies. *)
Theorem get_device_first_match (key : string) (s : State) :
  (forall w',
      Props.all_miss (ask_name key) (Middleman.backends (Middleman.self s))
        (Middleman.world s) w' ->
      Middleman.get_device_by_name key s
        = (None,
           {| Middleman.self := Middleman.self s; Middleman.world := w';
              Middleman.calls :=
                Middleman.calls s
                ++ name_calls key (Middleman.backends (Middleman.self s)) |}))
  /\ (forall pre b post w1 d w2,
        Middleman.backends (Middleman.self s) = pre ++ b :: post ->
        Props.all_miss (ask_name key) pre (Middleman.world s) w1 ->
        Backend.get_device_by_name b key w1 = (Backend.PyDevice d, w2) ->
        Middleman.get_device_by_name key s
          = (Some d,
             {| Middleman.self := Middleman.self s; Middleman.world := w2;
                Middleman.calls :=
                  Middleman.calls s ++ name_calls key (pre ++ [b]) |}))
  /\ (forall w',
        Props.all_miss (ask_serial key) (Middleman.backends (Middleman.self s))
          (Middleman.world s) w' ->
        Middleman.get_device_by_serial key s
          = (None,
             {| Middleman.self := Middleman.self s; Middleman.world := w';
                Middleman.calls :=
                  Middleman.calls s
                  ++ serial_calls key (Middleman.backends (Middleman.self s)) |}))
  /\ (forall pre b post w1 d w2,
        Middleman.backends (Middleman.self s) = pre ++ b :: post ->
        Props.all_miss (ask_serial key) pre (Middleman.world s) w1 ->
        Backend.get_device_by_serial b key w1 = (Backend.PyDevice d, w2) ->
        Middleman.get_device_by_serial key s
          = (Some d,
             {| Middleman.self := Middleman.self s; Middleman.world := w2;
                Middleman.calls :=
                  Middleman.calls s ++ serial_calls key (pre ++ [b]) |}))
  /\ (forall ask : Props.query,
        (exists w', Props.all_miss ask (Middleman.backends (Middleman.self s))
                      (Middleman.world s) w')
        \/ (exists pre b post w1 d w2,
              Middleman.backends (Middleman.self s) = pre ++ b :: post
              /\ Props.all_miss ask pre (Middleman.world s) w1
              /\ ask b w1 = (Backend.PyDevice d, w2))).
Proof.
  unfold Middleman.get_device_by_name, Middleman.get_device_by_serial.
  split; [|split; [|split; [|split]]].
  - intros w'. apply name_loop_miss.
  - intros pre b post w1 d w2 ->. apply name_loop_hit.
  - intros w'. apply serial_loop_miss.
  - intros pre b post w1 d w2 ->. apply serial_loop_hit.
  - intros ask. apply miss_or_hit.
Qed.

End Lookup.

Lemma get_device_first_match_witness :
  fst (Middleman.get_device_by_name "Razer BlackWidow" Examples.running)
    = Some Examples.keyboard
  /\ fst (Middleman.get_device_by_name "Razer Naga" Examples.running) = None
  /\ fst (Middleman.get_device_by_serial "XX0001" Examples.running)
     = Some Examples.keyboard
  /\ fst (Middleman.get_device_by_serial "XX0002" Examples.running) = None.
Proof.
  split; [|split; [|split]].
  - rewrite (proj1 (proj2 (get_device_first_match "Razer BlackWidow" Examples.running))
               [Examples.undervolt] Examples.daemon [] 0%nat Examples.keyboard 0%nat);
      [reflexivity | reflexivity | | reflexivity].
    eapply Props.miss_cons; [reflexivity | reflexivity | apply Props.miss_nil].
  - rewrite (proj1 (get_device_first_match "Razer Naga" Examples.running) 0%nat);
      [reflexivity|].
    eapply Props.miss_cons; [reflexivity | reflexivity |].
    eapply Props.miss_cons; [reflexivity | reflexivity | apply Props.miss_nil].
  - rewrite (proj1 (proj2 (proj2 (proj2
               (get_device_first_match "XX0001" Examples.running))))
               [Examples.undervolt] Examples.daemon [] 0%nat Examples.keyboard 0%nat);
      [reflexivity | reflexivity | | reflexivity].
    eapply Props.miss_cons; [reflexivity | reflexivity | apply Props.miss_nil].
  - rewrite (proj1 (proj2 (proj2 (get_device_first_match "XX0002" Examples.running)))
               0%nat); [reflexivity|].
    eapply Props.miss_cons; [reflexivity | reflexivity |].
    eapply Props.miss_cons; [reflexivity | reflexivity | apply Props.miss_nil].
Defined.

(** ** Properties of the undervolt backend *)

Section UndervoltBackend.
Context {World Troubleshooter : Type}.
Variable get_cpu_info : World -> Undervolt.CpuInfo.

Local Abbreviation State := (@Middleman.State World Troubleshooter).
Local Abbreviation undervolt := (Undervolt.UndervoltBackend get_cpu_info).

(** C9. [apply()] and [save()] append their message to the debug output
    and change nothing else: the backend object, the sliders and the
    hardware are as before. *)
Theorem apply_save_only_log (p : @Undervolt.Process World) :
  (Undervolt.self (Undervolt.apply p) = Undervolt.self p
   /\ Undervolt.sliders (Undervolt.apply p) = Undervolt.sliders p
   /\ Undervolt.hardware (Undervolt.apply p) = Undervolt.hardware p
   /\ Undervolt.debug_log (Undervolt.apply p)
      = Undervolt.debug_log p ++ ["Apply undervolting settings."])
  /\ (Undervolt.self (Undervolt.save p) = Undervolt.self p
      /\ Undervolt.sliders (Undervolt.save p) = Undervolt.sliders p
      /\ Undervolt.hardware (Undervolt.save p) = Undervolt.hardware p
      /\ Undervolt.debug_log (Undervolt.save p)
         = Undervolt.debug_log p ++ ["Save undervolting settings."]).
Proof. repeat split. Qed.

Lemma undervolt_answer (w : World) :
  Backend.get_devices undervolt w = (Backend.PyList [], w).
Proof.
  simpl. unfold Undervolt.get_devices_answer, Undervolt.get_devices,
    Undervolt.subscript, Undervolt.as_dict, Py.bind.
  rewrite lookup_insert_eq. reflexivity.
Qed.

Lemma reload_loop_undervolt_step (rest : list (Backend.t World)) (s : State) :
  Middleman.reload_loop (undervolt :: rest) s
    = Middleman.reload_loop rest
        (Middleman.record (Middleman.EvGetDevices "undervolt") s).
Proof.
  cbn [Middleman.reload_loop]. rewrite undervolt_answer.
  assert (E : forall s' : State,
             Middleman.with_self
               (fun m => Middleman.set_device_cache
                           (Middleman.device_cache m
                            ++ map (Middleman.set_backend undervolt) []) m) s'
             = s').
  { intros [[] ? ?]. unfold Middleman.with_self, Middleman.set_device_cache; simpl.
    now rewrite List.app_nil_r. }
  rewrite E. destruct s; reflexivity.
Qed.

(** With a cpu info that has the ["brand"] entry the backend object
    contributes nothing to the cache: the Middleman object and the world
    end up the same as if it were not in the backends list. *)
Lemma reload_loop_without_undervolt (pre post : list (Backend.t World)) (s : State) :
  Middleman.self (Middleman.reload_loop (pre ++ undervolt :: post) s)
    = Middleman.self (Middleman.reload_loop (pre ++ post) s)
  /\ Middleman.world (Middleman.reload_loop (pre ++ undervolt :: post) s)
     = Middleman.world (Middleman.reload_loop (pre ++ post) s).
Proof.
  revert s. induction pre as [|b pre IH]; intros s.
  - rewrite !List.app_nil_l, reload_loop_undervolt_step.
    apply reload_loop_ignores_calls; reflexivity.
  - simpl. destruct (Backend.get_devices b (Middleman.world s)) as [v w].
    destruct v; apply IH.
Qed.

(** C10. [UndervoltBackend.get_devices()] reads the ["brand"] entry of
    [cpuinfo.get_cpu_info()] before it returns: without that entry the
    call raises KeyError and returns no list; with it the call returns
    the empty list, the device built being dropped, and leaves the
    world as it is. *)
Theorem undervolt_get_devices_key_error
  (cpuinfo_get_cpu_info : World -> gmap string string) (w : World) :
  (cpuinfo_get_cpu_info w !! "brand" = None ->
   Undervolt.get_devices cpuinfo_get_cpu_info w = Py.Raises (Py.KeyError "brand") w)
  /\ (forall brand,
        cpuinfo_get_cpu_info w !! "brand" = Some brand ->
        Undervolt.get_devices cpuinfo_get_cpu_info w = Py.Returns [] w).
Proof.
  unfold Undervolt.get_devices, Undervolt.subscript, Py.bind.
  split; [intros -> | intros brand ->]; reflexivity.
Qed.

End UndervoltBackend.

Lemma undervolt_get_devices_key_error_witness :
  Undervolt.get_devices Scenarios.cpuinfo_9 0%nat
    = Py.Raises (Py.KeyError "brand") 0%nat
  /\ Undervolt.get_devices Scenarios.cpuinfo_5 0%nat = Py.Returns [] 0%nat.
Proof.
  split.
  - apply (proj1 (undervolt_get_devices_key_error Scenarios.cpuinfo_9 0%nat)).
    vm_compute. reflexivity.
  - apply (proj2 (undervolt_get_devices_key_error Scenarios.cpuinfo_5 0%nat)
             "Intel(R) Core(TM) i7-9750H").
    vm_compute. reflexivity.
Defined.

Example apply_then_save_on_laptop :
  Undervolt.debug_log (Undervolt.save (Undervolt.apply Examples.laptop))
    = ["Apply undervolting settings."; "Save undervolting settings."]
  /\ map Undervolt.voltage
       (Undervolt.sliders (Undervolt.save (Undervolt.apply Examples.laptop)))
     = [(-50)%Z; 0%Z]
  /\ Backend.get_devices Examples.undervolt 7%nat = (Backend.PyList [], 7%nat).
Proof. repeat split. Qed.

(** ** Properties of [Middleman.init] *)

Section Init.
Context {World Troubleshooter : Type}.
Variable openrazer_troubleshoot : Troubleshooter.
Variable get_exception_as_string : Py.exn -> string.
Variable get_cpu_info : World -> Undervolt.CpuInfo.

Local Abbreviation State := (@Middleman.State World Troubleshooter).
Local Abbreviation init :=
  (Middleman.init openrazer_troubleshoot get_exception_as_string get_cpu_info).

(** [Middleman()] in a world. *)
Local Abbreviation fresh w :=
  ({| Middleman.self := Middleman.new; Middleman.world := w;
      Middleman.calls := [] |} : State).

Lemma TROUBLESHOOT_MODULES_openrazer :
  Middleman.TROUBLESHOOT_MODULES openrazer_troubleshoot !! "openrazer"
    = Some openrazer_troubleshoot.
Proof. unfold Middleman.TROUBLESHOOT_MODULES. apply lookup_singleton_eq. Qed.

Ltac run_init :=
  unfold Middleman.init, Middleman.import_module,
    Middleman.OpenRazerBackend, Middleman.UndervoltBackend,
    Middleman.call_init, Middleman.on_world, Middleman.subscript,
    Props.openrazer_attempt, Props.undervolt_attempt,
    Outcomes.ordinary_run, Outcomes.world_after_init, Outcomes.openrazer_result;
  rewrite TROUBLESHOOT_MODULES_openrazer;
  unfold Py.try_except, Py.bind, Py.modify, Py.pass, Py.ret; simpl.

(** Case analysis on what the environment decides. *)
Ltac split_env :=
  repeat match goal with
         | |- context [Middleman.import_openrazer ?env] =>
             destruct (Middleman.import_openrazer env) as [[]|]; simpl
         | |- context [Middleman.openrazer_construct ?env ?w] =>
             destruct (Middleman.openrazer_construct env w) as [[] ?|[] ?]; simpl
         | |- context [Middleman.openrazer_init ?env ?w] =>
             destruct (Middleman.openrazer_init env w) as [[] ?|[] ?]; simpl
         | |- context [Middleman.import_undervolt ?env] =>
             destruct (Middleman.import_undervolt env) as [[]|]; simpl
         end.

Ltac solve_lists :=
  rewrite ?List.map_app; simpl; rewrite <- ?List.app_assoc, ?List.app_nil_r;
  reflexivity.

(** C1. After [init()] on a new Middleman returns, each of "openrazer"
    and "undervolt" is recorded in exactly one of backends, bad_init,
    not_installed and import_errors; and [init()] does return whenever
    what the backends raise derives from [Exception]. *)
Theorem init_classifies_each_backend_once (env : Middleman.Env) (w : World) :
  (Outcomes.ordinary_run env w = true ->
   exists s' : State,
     init env (fresh w) = Py.Returns tt s'
     /\ Forall (fun id => Middleman.times_classified id (Middleman.self s') = 1%nat)
          Middleman.known_backends)
  /\ (forall s' : State,
        init env (fresh w) = Py.Returns tt s' ->
        Forall (fun id => Middleman.times_classified id (Middleman.self s') = 1%nat)
          Middleman.known_backends).
Proof.
  run_init. split_env;
    (split;
     [ intros Hord;
       first [ discriminate Hord
             | eexists; split; [reflexivity|];
               repeat constructor; vm_compute; reflexivity ]
     | intros s' Hret;
       first [ discriminate Hret
             | injection Hret as <-; repeat constructor; vm_compute; reflexivity ] ]).
Qed.

(** C2, as amended. Whatever the environment decides about either
    backend, as long as what is raised derives from [Exception], [init()]
    returns normally. The OpenRazer constructor and [init()] are run (the
    world goes through them) and the backend is filed by what they did;
    the undervolt backend is then attempted and filed by its own import
    alone, whatever became of the OpenRazer one. An exit that does not
    derive from [Exception] (KeyboardInterrupt, SystemExit) is not
    caught: it reaches the caller of [init()], and when it comes from the
    OpenRazer attempt the undervolt backend is not attempted. *)
Theorem init_isolates_backends (env : Middleman.Env) (s : State) :
  (Outcomes.ordinary_run env (Middleman.world s) = true ->
   exists s' : State,
     init env s = Py.Returns tt s'
     /\ Middleman.world s' = Outcomes.world_after_init env (Middleman.world s)
     /\ Middleman.calls s'
        = Middleman.calls s
          ++ Props.openrazer_attempt env (Middleman.world s)
          ++ Props.undervolt_attempt env
     /\ map Backend.backend_id (Middleman.backends (Middleman.self s'))
        = map Backend.backend_id (Middleman.backends (Middleman.self s))
          ++ match Outcomes.openrazer_result env (Middleman.world s) with
             | inr true => ["openrazer"]
             | _ => []
             end
          ++ match Middleman.import_undervolt env with
             | None => ["undervolt"]
             | Some _ => []
             end
     /\ map Backend.backend_id (Middleman.bad_init (Middleman.self s'))
        = map Backend.backend_id (Middleman.bad_init (Middleman.self s))
          ++ match Outcomes.openrazer_result env (Middleman.world s) with
             | inr false => ["openrazer"]
             | _ => []
             end
     /\ Middleman.not_installed (Middleman.self s')
        = Middleman.not_installed (Middleman.self s)
          ++ match Outcomes.openrazer_result env (Middleman.world s) with
             | inl e => if Py.is_ImportError e then ["openrazer"] else []
             | inr _ => []
             end
          ++ match Middleman.import_undervolt env with
             | Some e => if Py.is_ImportError e then ["undervolt"] else []
             | None => []
             end
     /\ Middleman.import_errors (Middleman.self s')
        = let errors :=
            match Outcomes.openrazer_result env (Middleman.world s) with
            | inl e =>
                if Py.is_ImportError e
                then Middleman.import_errors (Middleman.self s)
                else <["openrazer" := get_exception_as_string e]>
                       (Middleman.import_errors (Middleman.self s))
            | inr _ => Middleman.import_errors (Middleman.self s)
            end in
          match Middleman.import_undervolt env with
          | Some e =>
              if Py.is_ImportError e then errors
              else <["undervolt" := get_exception_as_string e]> errors
          | None => errors
          end)
  /\ (Outcomes.ordinary_run env (Middleman.world s) = false ->
      exists (e : Py.exn) (s' : State),
        init env s = Py.Raises e s'
        /\ Py.is_Exception e = false
        /\ Middleman.calls s'
           = Middleman.calls s
             ++ Props.openrazer_attempt env (Middleman.world s)
             ++ match Outcomes.openrazer_result env (Middleman.world s) with
                | inl e0 =>
                    if Py.is_Exception e0 then Props.undervolt_attempt env else []
                | inr _ => Props.undervolt_attempt env
                end).
Proof.
  run_init. split_env;
    (split;
     [ intros Hord;
       first [ discriminate Hord
             | eexists; split; [reflexivity|]; simpl;
               repeat (split; [solve_lists|]); solve_lists ]
     | intros Hord;
       first [ discriminate Hord
             | do 2 eexists; split; [reflexivity|]; split; [reflexivity|]; simpl;
               solve_lists ] ]).
Qed.

End Init.

Example init_without_openrazer :
  match Middleman.init tt Examples.exception_as_string Examples.cpu_info
          Examples.env_no_openrazer (Examples.fresh 0) with
  | Py.Returns _ s' =>
      Middleman.not_installed (Middleman.self s') = ["openrazer"]
      /\ map Backend.backend_id (Middleman.backends (Middleman.self s')) = ["undervolt"]
      /\ Middleman.bad_init (Middleman.self s') = []
      /\ Middleman.import_errors (Middleman.self s') = ∅
      /\ Middleman.calls s'
         = [Middleman.EvImport "openrazer"; Middleman.EvImport "undervolt";
            Middleman.EvConstruct "undervolt"; Middleman.EvInit "undervolt"]
  | Py.Raises _ _ => False
  end.
Proof. vm_compute. repeat split. Qed.

Example init_with_daemon_down :
  match Middleman.init tt Examples.exception_as_string Examples.cpu_info
          Examples.env_daemon_down (Examples.fresh 0) with
  | Py.Returns _ s' =>
      Middleman.import_errors (Middleman.self s') !! "openrazer"
        = Some "DaemonNotFound: daemon is not running"
      /\ Middleman.import_errors (Middleman.self s') !! "undervolt" = None
      /\ map Backend.backend_id (Middleman.backends (Middleman.self s')) = ["undervolt"]
      /\ Middleman.not_installed (Middleman.self s') = []
      /\ Middleman.bad_init (Middleman.self s') = []
  | Py.Raises _ _ => False
  end.
Proof. vm_compute. repeat split. Qed.

Lemma init_classifies_each_backend_once_witness :
  exists s',
    Middleman.init tt Examples.exception_as_string Examples.cpu_info
      Scenarios.env_refused (Examples.fresh 0) = Py.Returns tt s'
    /\ Forall (fun id => Middleman.times_classified id (Middleman.self s') = 1%nat)
         Middleman.known_backends.
Proof.
  apply (proj1 (init_classifies_each_backend_once tt Examples.exception_as_string
                  Examples.cpu_info Scenarios.env_refused 0%nat)).
  reflexivity.
Defined.

Lemma init_isolates_backends_witness :
  exists s',
    Middleman.init tt Examples.exception_as_string Examples.cpu_info
      Scenarios.env_refused (Examples.fresh 0) = Py.Returns tt s'
    /\ Middleman.world s' = 2%nat
    /\ map Backend.backend_id (Middleman.bad_init (Middleman.self s')) = ["openrazer"]
    /\ map Backend.backend_id (Middleman.backends (Middleman.self s')) = [].
Proof.
  destruct (proj1 (init_isolates_backends tt Examples.exception_as_string
                     Examples.cpu_info Scenarios.env_refused (Examples.fresh 0))
              eq_refl)
    as (s' & Hret & Hworld & _ & Hrun & Hbad & _).
  exists s'. repeat split; assumption.
Defined.

(** C2 as stated fails: when the user interrupts the start-up while the
    OpenRazer backend initialises, [init()] does not return: the
    KeyboardInterrupt reaches its caller, and the undervolt backend has
    not been attempted (no import, no constructor, no [init()]). *)
Lemma init_propagates_keyboard_interrupt :
  Middleman.init tt Examples.exception_as_string Examples.cpu_info
    Scenarios.env_interrupted (Examples.fresh 0)
  = Py.Raises Py.KeyboardInterrupt
      {| Middleman.self := Middleman.new;
         Middleman.world := 1%nat;
         Middleman.calls :=
           [Middleman.EvImport "openrazer"; Middleman.EvConstruct "openrazer";
            Middleman.EvInit "openrazer"] |}.
Proof. reflexivity. Qed.

(** ** Properties of the backend registry queries *)

Section RegistryFacts.
Context {World Troubleshooter : Type}.

Local Abbreviation State := (@Middleman.State World Troubleshooter).
Local Abbreviation has_id id :=
  (fun b : Backend.t World => String.eqb id (Backend.backend_id b)).

Lemma get_backend_str_loop_find (id : string) (bs : list (Backend.t World)) :
  Registry.get_backend_str_loop id bs = List.find (has_id id) bs.
Proof.
  induction bs as [|b bs IH]; simpl; [reflexivity|].
  destruct (String.eqb id (Backend.backend_id b)); [reflexivity | exact IH].
Qed.

Lemma get_backend_loop_object {S} (id : string) (bs : list (Backend.t World)) (s : S) :
  Registry.get_backend_loop (Registry.ArgObject id) bs s
    = Py.Returns (List.find (has_id id) bs) s.
Proof.
  induction bs as [|b bs IH]; simpl; [reflexivity|].
  unfold Py.bind, Py.ret; simpl.
  destruct (String.eqb id (Backend.backend_id b)); [reflexivity | exact IH].
Qed.

(** X1. [get_backend] given an object returns the first backend of the
    list with the object's [backend_id], or [None]. Given a [str] it
    returns the first backend with that identifier; when no backend has
    it, the second loop reads [backend_id] off the string and raises
    AttributeError, unless the backends list is empty, in which case the
    result is [None]. The state is never changed. *)
Theorem get_backend_first_or_attribute_error
  (device : Registry.DeviceArg) (s : State) :
  let bs := Middleman.backends (Middleman.self s) in
  match device with
  | Registry.ArgObject id =>
      Registry.get_backend device s = Py.Returns (List.find (has_id id) bs) s
  | Registry.ArgStr id =>
      match List.find (has_id id) bs, bs with
      | Some b, _ => Registry.get_backend device s = Py.Returns (Some b) s
      | None, [] => Registry.get_backend device s = Py.Returns None s
      | None, _ :: _ =>
          Registry.get_backend device s
            = Py.Raises (Registry.AttributeError "str" "backend_id") s
      end
  end.
Proof.
  unfold Registry.get_backend. destruct device as [id|id]; simpl.
  - rewrite get_backend_str_loop_find.
    destruct (List.find (has_id id) (Middleman.backends (Middleman.self s)));
      [reflexivity|].
    destruct (Middleman.backends (Middleman.self s)); reflexivity.
  - apply get_backend_loop_object.
Qed.

Lemma is_backend_running_loop_existsb (id : string) (bs : list (Backend.t World)) :
  Registry.is_backend_running_loop id bs = List.existsb (has_id id) bs.
Proof.
  induction bs as [|b bs IH]; simpl; [reflexivity|].
  rewrite (String.eqb_sym id). destruct (String.eqb (Backend.backend_id b) id);
    [reflexivity | exact IH].
Qed.

Lemma existsb_find_some {A} (f : A -> bool) (l : list A) :
  List.existsb f l = match List.find f l with Some _ => true | None => false end.
Proof.
  induction l as [|x l IH]; simpl; [reflexivity|]. destruct (f x); [reflexivity | exact IH].
Qed.

Lemma existsb_has_id_elem (id : string) (bs : list (Backend.t World)) :
  List.existsb (has_id id) bs = bool_decide (id ∈ map Backend.backend_id bs).
Proof.
  induction bs as [|b bs IH]; cbn [List.existsb map].
  - symmetry. apply bool_decide_eq_false_2. apply not_elem_of_nil.
  - destruct (String.eqb id (Backend.backend_id b)) eqn:E; cbn [orb].
    + apply String.eqb_eq in E. symmetry. apply bool_decide_eq_true_2.
      rewrite E. apply list_elem_of_here.
    + rewrite IH. apply String.eqb_neq in E.
      apply bool_decide_ext. rewrite elem_of_cons. tauto.
Qed.

Lemma get_versions_loop_lookup (id : string) (bs : list (Backend.t World))
  (versions : gmap string string) :
  Registry.get_versions_loop bs versions !! id
    = match List.find (has_id id) (rev bs) with
      | Some b => Some (Backend.version b)
      | None => versions !! id
      end.
Proof.
  revert versions. induction bs as [|b bs IH]; intros versions; simpl; [reflexivity|].
  rewrite IH. clear IH.
  assert (F : forall l, List.find (has_id id) (l ++ [b])
                        = match List.find (has_id id) l with
                          | Some x => Some x
                          | None => if String.eqb id (Backend.backend_id b)
                                    then Some b else None
                          end).
  { induction l as [|x l IHl]; simpl; [reflexivity|].
    destruct (String.eqb id (Backend.backend_id x)); [reflexivity | exact IHl]. }
  rewrite F. destruct (List.find (has_id id) (rev bs)); [reflexivity|].
  destruct (String.eqb id (Backend.backend_id b)) eqn:E.
  - apply String.eqb_eq in E. subst id. apply lookup_insert_eq.
  - apply String.eqb_neq in E. apply lookup_insert_ne. congruence.
Qed.

(** X2. [get_versions()] maps an identifier to the version of the last
    backend of the list that has it (a later backend overwrites an
    earlier one with the same identifier, whereas [get_backend] returns
    the first), and has no entry for identifiers of no backend. *)
Theorem get_versions_last_wins (id : string) (m : @Middleman.t World Troubleshooter) :
  Registry.get_versions m !! id
    = match List.find (has_id id) (rev (Middleman.backends m)) with
      | Some b => Some (Backend.version b)
      | None => None
      end.
Proof.
  unfold Registry.get_versions. rewrite get_versions_loop_lookup.
  destruct (List.find _ _); [reflexivity | apply lookup_empty].
Qed.

Lemma find_rev_some {A} (f : A -> bool) (l : list A) :
  match List.find f (rev l) with Some _ => true | None => false end
  = match List.find f l with Some _ => true | None => false end.
Proof.
  rewrite <- !existsb_find_some. induction l as [|x l IH]; simpl; [reflexivity|].
  rewrite List.existsb_app, IH. simpl. rewrite orb_false_r. apply orb_comm.
Qed.

(** X3. [is_backend_running(id)] is true exactly when the identifier is
    among those of the backends list: it agrees with the membership test
    of the backends collection, with [get_backend] finding a backend for
    an object with that identifier, and with [get_versions()] having an
    entry for it. *)
Theorem is_backend_running_agrees (id : string) (s : State) :
  let m := Middleman.self s in
  Registry.is_backend_running id m = Middleman.in_backends id m
  /\ Registry.is_backend_running id m
     = match Registry.get_backend (Registry.ArgObject id) s with
       | Py.Returns (Some _) _ => true
       | _ => false
       end
  /\ Registry.is_backend_running id m
     = match Registry.get_versions m !! id with Some _ => true | None => false end.
Proof.
  simpl. unfold Registry.is_backend_running, Middleman.in_backends.
  rewrite is_backend_running_loop_existsb. split; [|split].
  - apply existsb_has_id_elem.
  - unfold Registry.get_backend. simpl. rewrite get_backend_loop_object.
    rewrite existsb_find_some. destruct (List.find _ _); reflexivity.
  - unfold Registry.get_versions.
    rewrite get_versions_loop_lookup, lookup_empty, existsb_find_some.
    rewrite <- (find_rev_some (has_id id)). destruct (List.find _ (rev _)); reflexivity.
Qed.

Lemma form_factor_loop_filter (ff : string) (cache devices : list Backend.DeviceItem) :
  Registry.get_devices_by_form_factor_loop ff cache devices
    = devices ++ List.filter (fun d => String.eqb (Backend.form_factor d) ff) cache.
Proof.
  revert devices. induction cache as [|d cache IH]; intros devices; simpl.
  - now rewrite List.app_nil_r.
  - destruct (String.eqb (Backend.form_factor d) ff); rewrite IH;
      [now rewrite <- List.app_assoc | reflexivity].
Qed.

(** X4. [get_devices_by_form_factor(id)] returns the devices that
    [get_devices()] returns in the same state, restricted to those with
    that form factor and in the same order, and leaves the state that
    [get_devices()] leaves (so it fills an empty cache too). *)
Theorem get_devices_by_form_factor_filters (ff : string) (s : State) :
  Registry.get_devices_by_form_factor ff s
    = (List.filter (fun d => String.eqb (Backend.form_factor d) ff)
         (fst (Middleman.get_devices s)),
       snd (Middleman.get_devices s)).
Proof.
  unfold Registry.get_devices_by_form_factor, Middleman.get_devices; simpl.
  now rewrite form_factor_loop_filter.
Qed.

End RegistryFacts.

Section TroubleshootFacts.
Context {World Troubleshooter Args Results : Type}.
Variable call_troubleshooter :
  Troubleshooter -> Args -> World -> Py.outcome World Results.

Local Abbreviation State := (@Middleman.State World Troubleshooter).

(** X5. [troubleshoot(backend, ...)] returns [None] when no
    troubleshooter is registered for the backend, without changing
    anything. When one is registered it is called and its results are
    returned; a KeyError raised inside it is caught by the same handler
    and also comes out as [None], and any other exception propagates. *)
Theorem troubleshoot_outcomes (backend : string) (args : Args) (s : State) :
  match Middleman.troubleshooters (Middleman.self s) !! backend with
  | None =>
      Registry.troubleshoot call_troubleshooter backend args s = Py.Returns None s
  | Some f =>
      match call_troubleshooter f args (Middleman.world s) with
      | Py.Returns r w =>
          Registry.troubleshoot call_troubleshooter backend args s
            = Py.Returns (Some r) (Middleman.with_world w s)
      | Py.Raises e w =>
          Registry.troubleshoot call_troubleshooter backend args s
            = if Py.is_KeyError e
              then Py.Returns None (Middleman.with_world w s)
              else Py.Raises e (Middleman.with_world w s)
      end
  end.
Proof.
  unfold Registry.troubleshoot, Registry.troubleshooter_of,
    Registry.run_troubleshooter, Middleman.subscript, Py.try_except, Py.bind.
  destruct (Middleman.troubleshooters (Middleman.self s) !! backend) as [f|];
    simpl; [|reflexivity].
  destruct (call_troubleshooter f args (Middleman.world s)) as [r w|e w];
    simpl; [reflexivity|].
  destruct (Py.is_KeyError e); reflexivity.
Qed.

End TroubleshootFacts.

(** ** Further properties of [Middleman.init] *)

Section InitOutcomes.
Context {World Troubleshooter : Type}.
Variable openrazer_troubleshoot : Troubleshooter.
Variable get_exception_as_string : Py.exn -> string.
Variable get_cpu_info : World -> Undervolt.CpuInfo.

Local Abbreviation State := (@Middleman.State World Troubleshooter).
Local Abbreviation init :=
  (Middleman.init openrazer_troubleshoot get_exception_as_string get_cpu_info).
Local Abbreviation fresh w :=
  ({| Middleman.self := Middleman.new; Middleman.world := w;
      Middleman.calls := [] |} : State).
Local Abbreviation undervolt := (Undervolt.UndervoltBackend get_cpu_info).

Lemma TROUBLESHOOT_MODULES_lookup :
  Middleman.TROUBLESHOOT_MODULES openrazer_troubleshoot !! "openrazer"
    = Some openrazer_troubleshoot.
Proof. unfold Middleman.TROUBLESHOOT_MODULES. apply lookup_singleton_eq. Qed.

Ltac unfold_init :=
  unfold Middleman.init, Middleman.import_module,
    Middleman.OpenRazerBackend, Middleman.UndervoltBackend,
    Middleman.call_init, Middleman.on_world, Middleman.subscript,
    Outcomes.ordinary_run, Outcomes.openrazer_result;
  rewrite TROUBLESHOOT_MODULES_lookup;
  unfold Py.try_except, Py.bind, Py.modify, Py.pass, Py.ret; simpl.

Ltac case_env :=
  repeat match goal with
         | |- context [Middleman.import_openrazer ?env] =>
             destruct (Middleman.import_openrazer env) as [[]|]; simpl
         | |- context [Middleman.openrazer_construct ?env ?w] =>
             destruct (Middleman.openrazer_construct env w) as [[] ?|[] ?]; simpl
         | |- context [Middleman.openrazer_init ?env ?w] =>
             destruct (Middleman.openrazer_init env w) as [[] ?|[] ?]; simpl
         | |- context [Middleman.import_undervolt ?env] =>
             destruct (Middleman.import_undervolt env) as [[]|]; simpl
         end.

(** [init()] returns exactly when what the backends raise derives from
    [Exception]. *)
Lemma init_returns (env : Middleman.Env) (s : State) :
  Outcomes.ordinary_run env (Middleman.world s) = true ->
  exists s' : State, init env s = Py.Returns tt s'.
Proof.
  unfold_init. case_env; intros Hord;
    first [discriminate Hord | eexists; reflexivity].
Qed.

(** X6. After [init()] on a new Middleman the undervolt backend is never
    in bad_init (its [init()] always returns true). It is in backends
    exactly when its import succeeded, in not_installed exactly when the
    import raised an ImportError (or ModuleNotFoundError), and any other
    exception of the import is stored, rendered as a string, under
    "undervolt" in import_errors. The outcome of the OpenRazer attempt
    plays no part. [init()] returns whenever what is raised derives from
    [Exception]. *)
Theorem init_undervolt_classification (env : Middleman.Env) (w : World) :
  (Outcomes.ordinary_run env w = true ->
   exists s' : State, init env (fresh w) = Py.Returns tt s')
  /\ (forall s' : State,
        init env (fresh w) = Py.Returns tt s' ->
        Middleman.in_bad_init "undervolt" (Middleman.self s') = false
        /\ Middleman.in_backends "undervolt" (Middleman.self s')
           = match Middleman.import_undervolt env with
             | None => true
             | Some _ => false
             end
        /\ Middleman.in_not_installed "undervolt" (Middleman.self s')
           = match Middleman.import_undervolt env with
             | Some e => Py.is_ImportError e
             | None => false
             end
        /\ Middleman.import_errors (Middleman.self s') !! "undervolt"
           = match Middleman.import_undervolt env with
             | Some e =>
                 if Py.is_ImportError e then None
                 else Some (get_exception_as_string e)
             | None => None
             end).
Proof.
  split; [apply (init_returns env (fresh w))|].
  unfold_init. case_env; intros s' Hret;
    first [ discriminate Hret
          | injection Hret as <-; repeat split; vm_compute; reflexivity ].
Qed.

(** X7. After [init()] on a new Middleman the OpenRazer backend is in
    backends when its import, its constructor and its [init()] succeeded
    and [init()] returned true, and in bad_init when [init()] returned
    false. An ImportError raised at any of the three steps, also by the
    constructor or by [init()] of an installed module, puts "openrazer"
    in not_installed; any other exception deriving from [Exception] is
    stored as a string in import_errors. [init()] returns whenever what
    is raised derives from [Exception]. *)
Theorem init_openrazer_classification (env : Middleman.Env) (w : World) :
  (Outcomes.ordinary_run env w = true ->
   exists s' : State, init env (fresh w) = Py.Returns tt s')
  /\ (forall s' : State,
        init env (fresh w) = Py.Returns tt s' ->
        Middleman.in_backends "openrazer" (Middleman.self s')
        = match Outcomes.openrazer_result env w with
          | inr true => true
          | _ => false
          end
        /\ Middleman.in_bad_init "openrazer" (Middleman.self s')
           = match Outcomes.openrazer_result env w with
             | inr false => true
             | _ => false
             end
        /\ Middleman.in_not_installed "openrazer" (Middleman.self s')
           = match Outcomes.openrazer_result env w with
             | inl e => Py.is_ImportError e
             | inr _ => false
             end
        /\ Middleman.import_errors (Middleman.self s') !! "openrazer"
           = match Outcomes.openrazer_result env w with
             | inl e =>
                 if Py.is_ImportError e then None
                 else Some (get_exception_as_string e)
             | inr _ => None
             end).
Proof.
  split; [apply (init_returns env (fresh w))|].
  unfold_init. case_env; intros s' Hret;
    first [ discriminate Hret
          | injection Hret as <-; repeat split; vm_compute; reflexivity ].
Qed.

(** X8. [init()] registers the OpenRazer troubleshooter under
    "openrazer" whatever became of the OpenRazer backend (also when the
    module is not installed), and registers nothing else: the other
    entries of [troubleshooters] stay as they were, and there is none
    for "undervolt" after [init()] on a new Middleman. [init()] returns
    whenever what is raised derives from [Exception]. *)
Theorem init_registers_openrazer_troubleshooter (env : Middleman.Env) (s : State) :
  (Outcomes.ordinary_run env (Middleman.world s) = true ->
   exists s' : State, init env s = Py.Returns tt s')
  /\ (forall s' : State,
        init env s = Py.Returns tt s' ->
        Middleman.troubleshooters (Middleman.self s')
        = <["openrazer" := openrazer_troubleshoot]>
            (Middleman.troubleshooters (Middleman.self s))
        /\ Middleman.troubleshooters (Middleman.self s') !! "openrazer"
           = Some openrazer_troubleshoot
        /\ Middleman.troubleshooters (Middleman.self s') !! "undervolt"
           = Middleman.troubleshooters (Middleman.self s) !! "undervolt").
Proof.
  split; [apply init_returns|].
  unfold_init. case_env; intros s' Hret;
    first [ discriminate Hret
          | injection Hret as <-; simpl;
            (split; [reflexivity|]);
            (split; [apply lookup_insert_eq | apply lookup_insert_ne; discriminate]) ].
Qed.

Ltac solve_appended :=
  first [ rewrite <- !List.app_assoc; reflexivity
        | reflexivity
        | symmetry; apply List.app_nil_r ].

(** X9. [init()] only adds to the Middleman: the backends, bad_init and
    not_installed lists keep their entries and get at most two new ones
    in all, every key of import_errors stays, and the device cache is
    left as it is (a backend that starts running does not show in an
    already loaded cache). [init()] returns whenever what is raised
    derives from [Exception]. *)
Theorem init_only_appends (env : Middleman.Env) (s : State) :
  (Outcomes.ordinary_run env (Middleman.world s) = true ->
   exists s' : State, init env s = Py.Returns tt s')
  /\ (forall s' : State,
        init env s = Py.Returns tt s' ->
        exists (new_backends new_bad : list (Backend.t World))
               (new_missing : list string),
          Middleman.backends (Middleman.self s')
          = Middleman.backends (Middleman.self s) ++ new_backends
          /\ Middleman.bad_init (Middleman.self s')
             = Middleman.bad_init (Middleman.self s) ++ new_bad
          /\ Middleman.not_installed (Middleman.self s')
             = Middleman.not_installed (Middleman.self s) ++ new_missing
          /\ (length new_backends + length new_bad + length new_missing <= 2)%nat
          /\ dom (Middleman.import_errors (Middleman.self s))
             ⊆ dom (Middleman.import_errors (Middleman.self s'))
          /\ Middleman.device_cache (Middleman.self s')
             = Middleman.device_cache (Middleman.self s)).
Proof.
  split; [apply init_returns|].
  unfold_init. case_env; intros s' Hret;
    first [ discriminate Hret
          | injection Hret as <-;
            do 3 eexists; simpl;
            (split; [solve_appended|]);
            (split; [solve_appended|]);
            (split; [solve_appended|]);
            (split; [simpl; lia|]);
            (split; [rewrite ?dom_insert_L; set_solver | reflexivity]) ].
Qed.

Lemma init_backends_with_undervolt (env : Middleman.Env) (s s' : State) :
  Middleman.import_undervolt env = None ->
  init env s = Py.Returns tt s' ->
  exists pre : list (Backend.t World),
    Middleman.backends (Middleman.self s')
    = Middleman.backends (Middleman.self s) ++ pre ++ [undervolt]
    /\ Forall (fun b => Backend.backend_id b = "openrazer") pre.
Proof.
  intros H. unfold_init. rewrite H. case_env; intros Hret;
    first [ discriminate Hret
          | injection Hret as <-;
            first [ exists []; split; [reflexivity | constructor]
                  | eexists; simpl;
                    split; [rewrite <- List.app_assoc; reflexivity
                           | repeat constructor] ] ].
Qed.

Lemma count_undervolt_app (l1 l2 : list string) :
  length (List.filter (String.eqb "undervolt") (l1 ++ l2))
  = (length (List.filter (String.eqb "undervolt") l1)
     + length (List.filter (String.eqb "undervolt") l2))%nat.
Proof. now rewrite List.filter_app, List.length_app. Qed.

Lemma count_undervolt_openrazer (pre : list (Backend.t World)) :
  Forall (fun b => Backend.backend_id b = "openrazer") pre ->
  length (List.filter (String.eqb "undervolt") (map Backend.backend_id pre)) = 0%nat.
Proof.
  induction 1 as [|b pre Hb _ IH]; simpl; [reflexivity|]. rewrite Hb. exact IH.
Qed.

(** X10. [init()] is a one-shot step: a second [init()] on the same
    Middleman appends a working undervolt backend to the backends list
    again, so that after two calls whose undervolt import succeeded the
    list of a Middleman that was new holds "undervolt" twice. Both calls
    return whenever what is raised derives from [Exception]. *)
Theorem init_twice_registers_undervolt_twice (env1 env2 : Middleman.Env) (w : World) :
  Middleman.import_undervolt env1 = None ->
  Middleman.import_undervolt env2 = None ->
  (Outcomes.ordinary_run env1 w = true ->
   exists s1 : State,
     init env1 (fresh w) = Py.Returns tt s1
     /\ (Outcomes.ordinary_run env2 (Middleman.world s1) = true ->
         exists s2 : State, init env2 s1 = Py.Returns tt s2))
  /\ (forall s1 s2 : State,
        init env1 (fresh w) = Py.Returns tt s1 ->
        init env2 s1 = Py.Returns tt s2 ->
        length (List.filter (String.eqb "undervolt")
                  (map Backend.backend_id (Middleman.backends (Middleman.self s2))))
        = 2%nat).
Proof.
  intros H1 H2. split.
  - intros Hord. destruct (init_returns env1 (fresh w) Hord) as [s1 Hret1].
    exists s1. split; [exact Hret1|]. apply init_returns.
  - intros s1 s2 Hret1 Hret2.
    destruct (init_backends_with_undervolt env1 (fresh w) s1 H1 Hret1)
      as (pre1 & Hb1 & Hpre1).
    destruct (init_backends_with_undervolt env2 s1 s2 H2 Hret2)
      as (pre2 & Hb2 & Hpre2).
    rewrite Hb2, Hb1. simpl.
    rewrite !List.map_app, !count_undervolt_app,
      (count_undervolt_openrazer _ Hpre1), (count_undervolt_openrazer _ Hpre2).
    reflexivity.
Qed.

End InitOutcomes.

Lemma init_undervolt_classification_witness :
  exists s',
    Middleman.init tt Examples.exception_as_string Examples.cpu_info
      Scenarios.env_refused (Examples.fresh 0) = Py.Returns tt s'
    /\ Middleman.in_backends "undervolt" (Middleman.self s') = false
    /\ Middleman.import_errors (Middleman.self s') !! "undervolt"
       = Some "OSError: cannot read /proc/cpuinfo".
Proof.
  destruct (proj1 (init_undervolt_classification tt Examples.exception_as_string
                     Examples.cpu_info Scenarios.env_refused 0%nat) eq_refl)
    as [s' Hret].
  destruct (proj2 (init_undervolt_classification tt Examples.exception_as_string
                     Examples.cpu_info Scenarios.env_refused 0%nat) s' Hret)
    as (_ & Hrun & _ & Herr).
  exists s'. repeat split; assumption.
Defined.

Lemma init_openrazer_classification_witness :
  exists s',
    Middleman.init tt Examples.exception_as_string Examples.cpu_info
      Scenarios.env_refused (Examples.fresh 0) = Py.Returns tt s'
    /\ Middleman.in_backends "openrazer" (Middleman.self s') = false
    /\ Middleman.in_bad_init "openrazer" (Middleman.self s') = true.
Proof.
  destruct (proj1 (init_openrazer_classification tt Examples.exception_as_string
                     Examples.cpu_info Scenarios.env_refused 0%nat) eq_refl)
    as [s' Hret].
  destruct (proj2 (init_openrazer_classification tt Examples.exception_as_string
                     Examples.cpu_info Scenarios.env_refused 0%nat) s' Hret)
    as (Hrun & Hbad & _).
  exists s'. repeat split; assumption.
Defined.

Lemma init_registers_openrazer_troubleshooter_witness :
  exists s',
    Middleman.init tt Examples.exception_as_string Examples.cpu_info
      Examples.env_no_openrazer (Examples.fresh 0) = Py.Returns tt s'
    /\ Middleman.troubleshooters (Middleman.self s') !! "openrazer" = Some tt.
Proof.
  destruct (proj1 (init_registers_openrazer_troubleshooter tt
                     Examples.exception_as_string Examples.cpu_info
                     Examples.env_no_openrazer (Examples.fresh 0)) eq_refl)
    as [s' Hret].
  destruct (proj2 (init_registers_openrazer_troubleshooter tt
                     Examples.exception_as_string Examples.cpu_info
                     Examples.env_no_openrazer (Examples.fresh 0)) s' Hret)
    as (_ & Hreg & _).
  exists s'. split; assumption.
Defined.

Lemma init_only_appends_witness :
  exists s',
    Middleman.init tt Examples.exception_as_string Examples.cpu_info
      Examples.env_no_openrazer Examples.scanned = Py.Returns tt s'
    /\ Middleman.device_cache (Middleman.self s') = [].
Proof.
  destruct (proj1 (init_only_appends tt Examples.exception_as_string
                     Examples.cpu_info Examples.env_no_openrazer Examples.scanned)
              eq_refl) as [s' Hret].
  destruct (proj2 (init_only_appends tt Examples.exception_as_string
                     Examples.cpu_info Examples.env_no_openrazer Examples.scanned)
              s' Hret) as (? & ? & ? & _ & _ & _ & _ & _ & Hcache).
  exists s'. split; assumption.
Defined.

Lemma init_twice_registers_undervolt_twice_witness :
  exists s1 s2,
    Middleman.init tt Examples.exception_as_string Examples.cpu_info
      Examples.env_no_openrazer (Examples.fresh 0) = Py.Returns tt s1
    /\ Middleman.init tt Examples.exception_as_string Examples.cpu_info
         Examples.env_daemon_down s1 = Py.Returns tt s2
    /\ length (List.filter (String.eqb "undervolt")
                 (map Backend.backend_id (Middleman.backends (Middleman.self s2))))
       = 2%nat.
Proof.
  destruct (init_twice_registers_undervolt_twice tt Examples.exception_as_string
              Examples.cpu_info Examples.env_no_openrazer Examples.env_daemon_down
              0%nat eq_refl eq_refl) as [Hret Hcount].
  destruct (Hret eq_refl) as (s1 & Hret1 & Hret2).
  destruct (Hret2 eq_refl) as [s2 Hret2'].
  exists s1, s2. repeat split; [exact Hret1 | exact Hret2' |].
  exact (Hcount s1 s2 Hret1 Hret2').
Defined.

(** ** Further properties of the device cache and the lookups *)

Section CacheFrame.
Context {World Troubleshooter : Type}.

Local Abbreviation State := (@Middleman.State World Troubleshooter).

Lemma reload_loop_same_registry (bs : list (Backend.t World)) (s : State) :
  Outcomes.same_registry (Middleman.self s)
    (Middleman.self (Middleman.reload_loop bs s)).
Proof.
  revert s. induction bs as [|b bs IH]; intros s; simpl.
  - repeat split.
  - destruct (Backend.get_devices b (Middleman.world s)) as [v w].
    destruct v;
      match goal with
      | |- Outcomes.same_registry _ (Middleman.self (Middleman.reload_loop bs ?s1)) =>
          destruct (IH s1) as (H1 & H2 & H3 & H4 & H5)
      end;
      repeat split; simpl in *; assumption.
Qed.

Lemma reload_if_empty_same_registry (s : State) :
  Outcomes.same_registry (Middleman.self s)
    (Middleman.self (Middleman._reload_device_cache_if_empty s)).
Proof.
  unfold Middleman._reload_device_cache_if_empty.
  destruct (Py.truthy _); [repeat split | apply reload_loop_same_registry].
Qed.

Lemma name_loop_self (name : string) (bs : list (Backend.t World)) (s : State) :
  Middleman.self (snd (Middleman.get_device_by_name_loop name bs s)) = Middleman.self s.
Proof.
  revert s. induction bs as [|b bs IH]; intros s; simpl; [reflexivity|].
  destruct (Backend.get_device_by_name b name (Middleman.world s)) as [v w].
  destruct v; try reflexivity; now rewrite IH.
Qed.

Lemma serial_loop_self (serial : string) (bs : list (Backend.t World)) (s : State) :
  Middleman.self (snd (Middleman.get_device_by_serial_loop serial bs s))
    = Middleman.self s.
Proof.
  revert s. induction bs as [|b bs IH]; intros s; simpl; [reflexivity|].
  destruct (Backend.get_device_by_serial b serial (Middleman.world s)) as [v w].
  destruct v; try reflexivity; now rewrite IH.
Qed.

(** X11. The device queries never touch the registry of backends:
    [get_devices], [get_devices_by_form_factor], [invalidate_cache] and
    [reload_device_cache] change the device cache at most, leaving
    backends, bad_init, not_installed, troubleshooters and import_errors
    as they were; [get_device_by_name] and [get_device_by_serial] leave
    the whole Middleman object as it was, the cache included (their
    result is not cached). *)
Theorem device_queries_keep_registry (key : string) (s : State) :
  Outcomes.same_registry (Middleman.self s)
    (Middleman.self (snd (Middleman.get_devices s)))
  /\ Outcomes.same_registry (Middleman.self s)
       (Middleman.self (snd (Registry.get_devices_by_form_factor key s)))
  /\ Outcomes.same_registry (Middleman.self s)
       (Middleman.self (Middleman.invalidate_cache s))
  /\ Outcomes.same_registry (Middleman.self s)
       (Middleman.self (Middleman.reload_device_cache s))
  /\ Middleman.self (snd (Middleman.get_device_by_name key s)) = Middleman.self s
  /\ Middleman.self (snd (Middleman.get_device_by_serial key s)) = Middleman.self s.
Proof.
  split; [apply reload_if_empty_same_registry|].
  split; [apply reload_if_empty_same_registry|].
  split; [repeat split|].
  split.
  - unfold Middleman.reload_device_cache.
    apply (reload_if_empty_same_registry
             (Middleman.with_self (Middleman.set_device_cache []) s)).
  - split; [apply name_loop_self | apply serial_loop_self].
Qed.

Lemma reload_loop_owned (all bs : list (Backend.t World)) (s : State) :
  (forall b, In b bs -> In b all) ->
  Forall (Outcomes.owned all) (Middleman.device_cache (Middleman.self s)) ->
  Forall (Outcomes.owned all)
    (Middleman.device_cache (Middleman.self (Middleman.reload_loop bs s))).
Proof.
  revert s. induction bs as [|b bs IH]; intros s Hsub Hcache; simpl; [exact Hcache|].
  destruct (Backend.get_devices b (Middleman.world s)) as [v w].
  assert (Hsub' : forall b', In b' bs -> In b' all)
    by (intros b' Hb'; apply Hsub; right; exact Hb').
  destruct v; apply IH; try exact Hsub'; simpl; try exact Hcache.
  apply List.Forall_app. split; [exact Hcache|].
  apply List.Forall_forall. intros d Hd. apply List.in_map_iff in Hd.
  destruct Hd as (d0 & <- & _). exists b. split; [apply Hsub; left|]; reflexivity.
Qed.

(** X12. Every device that a cache refill puts in the cache has its
    [backend] attribute set to a backend of the backends list: after
    [reload_device_cache()] this holds of the whole cache, and
    [get_devices()] keeps it if it held of the cache before (in
    particular from an empty cache). *)
Theorem cached_devices_are_owned (s : State) :
  Forall (Outcomes.owned (Middleman.backends (Middleman.self s)))
    (Middleman.device_cache (Middleman.self (Middleman.reload_device_cache s)))
  /\ (Forall (Outcomes.owned (Middleman.backends (Middleman.self s)))
        (Middleman.device_cache (Middleman.self s)) ->
      Forall (Outcomes.owned (Middleman.backends (Middleman.self s)))
        (fst (Middleman.get_devices s))).
Proof.
  split.
  - unfold Middleman.reload_device_cache, Middleman._reload_device_cache_if_empty.
    simpl. apply reload_loop_owned; [auto | constructor].
  - intros H. unfold Middleman.get_devices, Middleman._reload_device_cache_if_empty.
    simpl. destruct (Py.truthy _); [exact H|].
    apply reload_loop_owned; [auto | exact H].
Qed.

End CacheFrame.

Lemma cached_devices_are_owned_witness :
  Forall (Outcomes.owned (Middleman.backends (Middleman.self Examples.scanned)))
    (fst (Middleman.get_devices Examples.scanned)).
Proof.
  apply (proj2 (cached_devices_are_owned Examples.scanned)). constructor.
Defined.

Section UndervoltLookup.
Context {World Troubleshooter : Type}.
Variable get_cpu_info : World -> Undervolt.CpuInfo.

Local Abbreviation State := (@Middleman.State World Troubleshooter).
Local Abbreviation undervolt := (Undervolt.UndervoltBackend get_cpu_info).

Lemma name_loop_ignores_calls (name : string) (bs : list (Backend.t World))
  (s1 s2 : State) :
  Middleman.world s1 = Middleman.world s2 ->
  fst (Middleman.get_device_by_name_loop name bs s1)
    = fst (Middleman.get_device_by_name_loop name bs s2)
  /\ Middleman.world (snd (Middleman.get_device_by_name_loop name bs s1))
     = Middleman.world (snd (Middleman.get_device_by_name_loop name bs s2)).
Proof.
  revert s1 s2. induction bs as [|b bs IH]; intros s1 s2 Hw; simpl; [now split|].
  rewrite Hw. destruct (Backend.get_device_by_name b name (Middleman.world s2)) as [v w].
  destruct v; try (apply IH; reflexivity). now split.
Qed.

Lemma serial_loop_ignores_calls (serial : string) (bs : list (Backend.t World))
  (s1 s2 : State) :
  Middleman.world s1 = Middleman.world s2 ->
  fst (Middleman.get_device_by_serial_loop serial bs s1)
    = fst (Middleman.get_device_by_serial_loop serial bs s2)
  /\ Middleman.world (snd (Middleman.get_device_by_serial_loop serial bs s1))
     = Middleman.world (snd (Middleman.get_device_by_serial_loop serial bs s2)).
Proof.
  revert s1 s2. induction bs as [|b bs IH]; intros s1 s2 Hw; simpl; [now split|].
  rewrite Hw.
  destruct (Backend.get_device_by_serial b serial (Middleman.world s2)) as [v w].
  destruct v; try (apply IH; reflexivity). now split.
Qed.

(** X13. The undervolt backend answers every lookup by name or serial
    with [None] and leaves the world alone, so the Middleman lookups
    pass over it: with it anywhere in the backends list they return the
    device, and leave the world, that they would without it. *)
Theorem lookups_pass_over_undervolt (key : string)
  (pre post : list (Backend.t World)) (s : State) :
  (fst (Middleman.get_device_by_name_loop key (pre ++ undervolt :: post) s)
     = fst (Middleman.get_device_by_name_loop key (pre ++ post) s)
   /\ Middleman.world
        (snd (Middleman.get_device_by_name_loop key (pre ++ undervolt :: post) s))
      = Middleman.world (snd (Middleman.get_device_by_name_loop key (pre ++ post) s)))
  /\ (fst (Middleman.get_device_by_serial_loop key (pre ++ undervolt :: post) s)
        = fst (Middleman.get_device_by_serial_loop key (pre ++ post) s)
      /\ Middleman.world
           (snd (Middleman.get_device_by_serial_loop key (pre ++ undervolt :: post) s))
         = Middleman.world
             (snd (Middleman.get_device_by_serial_loop key (pre ++ post) s))).
Proof.
  split.
  - revert s. induction pre as [|b pre IH]; intros s.
    + simpl. apply name_loop_ignores_calls. reflexivity.
    + simpl. destruct (Backend.get_device_by_name b key (Middleman.world s)) as [v w].
      destruct v; try apply IH. now split.
  - revert s. induction pre as [|b pre IH]; intros s.
    + simpl. apply serial_loop_ignores_calls. reflexivity.
    + simpl. destruct (Backend.get_device_by_serial b key (Middleman.world s)) as [v w].
      destruct v; try apply IH. now split.
Qed.

End UndervoltLookup.

(** ** Properties of re-applying options and of the colour setters *)

Section ReplayFacts.

Lemma find_snoc {A} (f : A -> bool) (l : list A) (x : A) :
  List.find f (l ++ [x])
  = match List.find f l with
    | Some y => Some y
    | None => if f x then Some x else None
    end.
Proof.
  induction l as [|y l IH]; simpl; [reflexivity|].
  destruct (f y); [reflexivity | exact IH].
Qed.

Lemma param_data_loop_last_active (params : list Backend.Param) (param_data : string) :
  Replay.param_data_loop params param_data
  = match List.find Backend.p_active (rev params) with
    | Some p => Backend.p_data p
    | None => param_data
    end.
Proof.
  revert param_data. induction params as [|p params IH]; intros d; simpl; [reflexivity|].
  rewrite IH, find_snoc.
  destruct (List.find Backend.p_active (rev params)); [reflexivity|].
  destruct (Backend.p_active p); reflexivity.
Qed.

(** X14. An option that has parameters is re-applied with the data of
    the last parameter flagged active (the loop keeps overwriting), and
    with the data of the first parameter when none is active, whatever
    the class of the option and whichever parameter is flagged default:
    exactly one [apply] call is made. *)
Theorem apply_uses_last_active_parameter
  (opt : Backend.Option) (first : Backend.Param) (rest : list Backend.Param) :
  Backend.parameters opt = first :: rest ->
  Replay._apply_option_with_same_params opt
  = [Replay.Apply (Backend.uid opt)
       (Replay.ApplyData
          match List.find Backend.p_active (rev (Backend.parameters opt)) with
          | Some p => Backend.p_data p
          | None => Backend.p_data first
          end)].
Proof.
  intros H. unfold Replay._apply_option_with_same_params.
  rewrite H. cbv beta iota zeta.
  rewrite param_data_loop_last_active. reflexivity.
Qed.

Lemma find_rev_unique {A} (f : A -> bool) (l : list A) :
  (length (List.filter f l) <= 1)%nat ->
  List.find f (rev l) = List.find f l.
Proof.
  induction l as [|x l IH]; simpl; [reflexivity|].
  rewrite find_snoc. destruct (f x) eqn:E; simpl; intros H.
  - assert (Hnil : List.filter f l = [])
      by (destruct (List.filter f l); [reflexivity | simpl in H; lia]).
    assert (Hnone : List.find f (rev l) = None).
    { destruct (List.find f (rev l)) as [y|] eqn:Hy; [|reflexivity].
      apply List.find_some in Hy. destruct Hy as [Hin Hfy].
      apply List.in_rev in Hin.
      assert (In y (List.filter f l)) by (apply List.filter_In; now split).
      rewrite Hnil in *. contradiction. }
    now rewrite Hnone.
  - rewrite (IH H). destruct (List.find f l); reflexivity.
Qed.

(** X15. When at most one parameter is flagged active, re-applying the
    option uses the data of the parameter that [get_active_parameter]
    returns, and of the first parameter (not of the default one) when it
    returns none. *)
Theorem apply_agrees_with_get_active_parameter
  (opt : Backend.Option) (first : Backend.Param) (rest : list Backend.Param) :
  Backend.parameters opt = first :: rest ->
  (length (List.filter Backend.p_active (Backend.parameters opt)) <= 1)%nat ->
  Replay._apply_option_with_same_params opt
  = [Replay.Apply (Backend.uid opt)
       (Replay.ApplyData
          match Middleman.get_active_parameter opt with
          | Some p => Backend.p_data p
          | None => Backend.p_data first
          end)].
Proof.
  intros H Hone. unfold Replay._apply_option_with_same_params.
  unfold Middleman.get_active_parameter. rewrite get_active_parameter_loop_find.
  rewrite <- (find_rev_unique _ _ Hone).
  rewrite H. cbv beta iota zeta.
  rewrite param_data_loop_last_active. reflexivity.
Qed.

Lemma apply_ignores_colours (colours : list string) (opt : Backend.Option) :
  Replay._apply_option_with_same_params (Replay.with_colours colours opt)
  = Replay._apply_option_with_same_params opt.
Proof. reflexivity. Qed.

Lemma setitem_valid {A} (l : list A) (i : Z) (x : A) :
  Recolour.valid_index l i = true ->
  Replay.setitem l i x = Some (<[Recolour.position l i := x]> l).
Proof.
  unfold Recolour.valid_index, Recolour.position, Replay.setitem.
  intros H. apply andb_true_iff in H. destruct H as [Hlo Hhi].
  apply Z.leb_le in Hlo. apply Z.ltb_lt in Hhi.
  destruct (0 <=? i)%Z eqn:E0.
  - apply Z.leb_le in E0. apply Z.ltb_lt in Hhi. rewrite Hhi. simpl.
    apply Z.ltb_lt in Hhi. now rewrite Z.mod_small by lia.
  - apply Z.leb_gt in E0. simpl.
    assert (Hlo' : (- Z.of_nat (length l) <=? i)%Z = true) by now apply Z.leb_le.
    assert (Hneg : (i <? 0)%Z = true) by now apply Z.ltb_lt.
    rewrite Hlo', Hneg. simpl.
    replace (i mod Z.of_nat (length l))%Z with (Z.of_nat (length l) + i)%Z;
      [reflexivity|].
    symmetry.
    rewrite <- (Z.mod_small (Z.of_nat (length l) + i) (Z.of_nat (length l))) by lia.
    rewrite Z.add_comm.
    rewrite <- (Z_mod_plus_full i 1 (Z.of_nat (length l))).
    f_equal. lia.
Qed.

Lemma setitem_invalid {A} (l : list A) (i : Z) (x : A) :
  Recolour.valid_index l i = false ->
  Replay.setitem l i x = None.
Proof.
  unfold Recolour.valid_index, Replay.setitem. intros H.
  apply andb_false_iff in H.
  destruct (0 <=? i)%Z eqn:E0, (i <? Z.of_nat (length l))%Z eqn:E1,
    (- Z.of_nat (length l) <=? i)%Z eqn:E2, (i <? 0)%Z eqn:E3;
    simpl; try reflexivity;
    destruct H as [H|H]; try discriminate H.
  all: repeat match goal with
              | H : (_ <=? _)%Z = true |- _ => apply Z.leb_le in H
              | H : (_ <=? _)%Z = false |- _ => apply Z.leb_gt in H
              | H : (_ <? _)%Z = true |- _ => apply Z.ltb_lt in H
              | H : (_ <? _)%Z = false |- _ => apply Z.ltb_ge in H
              end; lia.
Qed.

Lemma position_lt {A} (l : list A) (i : Z) :
  Recolour.valid_index l i = true -> (Recolour.position l i < length l)%nat.
Proof.
  unfold Recolour.valid_index, Recolour.position. intros H.
  apply andb_true_iff in H. destruct H as [Hlo Hhi].
  apply Z.leb_le in Hlo. apply Z.ltb_lt in Hhi.
  assert (0 < Z.of_nat (length l))%Z by lia.
  pose proof (Z.mod_pos_bound i (Z.of_nat (length l)) ltac:(lia)). lia.
Qed.

(** X16. [set_colour_for_option] with a colour position that is a valid
    index of the option's colours ([-len, len), a negative position
    counting from the end) stores the colour at that position: the other
    colours, the number of colours and every other attribute of the
    option stay, and the option is then re-applied exactly as it would
    have been before the change. *)
Theorem set_colour_in_range (hex_value : string) (colour_pos : Z)
  (opt : Backend.Option) (log : list Replay.Action) :
  Recolour.valid_index (Backend.colours opt) colour_pos = true ->
  let i := Recolour.position (Backend.colours opt) colour_pos in
  let opt' := Replay.with_colours (<[i := hex_value]> (Backend.colours opt)) opt in
  Replay.set_colour_for_option hex_value colour_pos (opt, log)
    = Py.Returns tt (opt', log ++ Replay._apply_option_with_same_params opt)
  /\ Backend.colours opt' !! i = Some hex_value
  /\ (forall j, j <> i -> Backend.colours opt' !! j = Backend.colours opt !! j)
  /\ length (Backend.colours opt') = length (Backend.colours opt)
  /\ (colour_pos >= 0 -> i = Z.to_nat colour_pos)%Z
  /\ (colour_pos < 0 ->
      i = Z.to_nat (Z.of_nat (length (Backend.colours opt)) + colour_pos))%Z.
Proof.
  intros Hvalid i opt'. split; [|split; [|split; [|split; [|split]]]].
  - unfold Replay.set_colour_for_option.
    rewrite (setitem_valid _ _ _ Hvalid). reflexivity.
  - simpl. apply list_lookup_insert_eq. now apply position_lt.
  - intros j Hj. simpl. apply list_lookup_insert_ne. congruence.
  - simpl. apply length_insert.
  - intros Hpos. subst i. unfold Recolour.position.
    unfold Recolour.valid_index in Hvalid. apply andb_true_iff in Hvalid.
    destruct Hvalid as [_ Hhi]. apply Z.ltb_lt in Hhi.
    now rewrite Z.mod_small by lia.
  - intros Hneg. subst i. unfold Recolour.position.
    unfold Recolour.valid_index in Hvalid. apply andb_true_iff in Hvalid.
    destruct Hvalid as [Hlo _]. apply Z.leb_le in Hlo. f_equal.
    rewrite <- (Z.mod_small (Z.of_nat (length (Backend.colours opt)) + colour_pos)
                  (Z.of_nat (length (Backend.colours opt)))) by lia.
    rewrite Z.add_comm.
    rewrite <- (Z_mod_plus_full colour_pos 1 (Z.of_nat (length (Backend.colours opt)))).
    f_equal. lia.
Qed.

(** X17. [set_colour_for_option] with a colour position outside
    [-len, len) raises IndexError before anything happens: the option is
    unchanged and it is not re-applied. An option without colours
    therefore rejects every position, the default 0 included. *)
Theorem set_colour_out_of_range (hex_value : string) (colour_pos : Z)
  (opt : Backend.Option) (log : list Replay.Action) :
  (Recolour.valid_index (Backend.colours opt) colour_pos = false ->
   Replay.set_colour_for_option hex_value colour_pos (opt, log)
     = Py.Raises Replay.IndexError (opt, log))
  /\ (Backend.colours opt = [] ->
      Replay.set_colour_for_option hex_value colour_pos (opt, log)
        = Py.Raises Replay.IndexError (opt, log)).
Proof.
  assert (H : Recolour.valid_index (Backend.colours opt) colour_pos = false ->
              Replay.set_colour_for_option hex_value colour_pos (opt, log)
              = Py.Raises Replay.IndexError (opt, log)).
  { intros Hinvalid. unfold Replay.set_colour_for_option.
    now rewrite (setitem_invalid _ _ _ Hinvalid). }
  split; [exact H|].
  intros Hnil. apply H. unfold Recolour.valid_index. rewrite Hnil.
  change (Z.of_nat (length (@nil string))) with 0%Z.
  apply andb_false_iff.
  destruct (Z.ltb_spec colour_pos 0);
    [left; apply Z.leb_gt; lia | right; reflexivity].
Qed.

End ReplayFacts.

Lemma apply_uses_last_active_parameter_witness :
  Replay._apply_option_with_same_params Scenarios.reactive
    = [Replay.Apply "reactive" (Replay.ApplyData "fast")]
  /\ Middleman.get_active_parameter Scenarios.reactive
     = Backend.parameters Scenarios.reactive !! 0%nat.
Proof.
  split; [|reflexivity].
  exact (apply_uses_last_active_parameter Scenarios.reactive _ _ eq_refl).
Defined.

Lemma apply_agrees_with_get_active_parameter_witness :
  Replay._apply_option_with_same_params Examples.wave
    = [Replay.Apply "wave" (Replay.ApplyData "2")].
Proof.
  apply (apply_agrees_with_get_active_parameter Examples.wave _ _ eq_refl).
  simpl. lia.
Defined.

Lemma set_colour_in_range_witness :
  Replay.set_colour_for_option "#FFFFFF" (-1) (Scenarios.reactive, [])
    = Py.Returns tt
        (Replay.with_colours ["#FF0000"; "#FFFFFF"] Scenarios.reactive,
         [Replay.Apply "reactive" (Replay.ApplyData "fast")]).
Proof.
  apply (proj1 (set_colour_in_range "#FFFFFF" (-1) Scenarios.reactive [] eq_refl)).
Defined.

Lemma set_colour_out_of_range_witness :
  Replay.set_colour_for_option "#FFFFFF" 2 (Scenarios.reactive, [])
    = Py.Raises Replay.IndexError (Scenarios.reactive, [])
  /\ Replay.set_colour_for_option "#FFFFFF" 0 (Examples.wave, [])
     = Py.Raises Replay.IndexError (Examples.wave, []).
Proof.
  split.
  - apply (proj1 (set_colour_out_of_range "#FFFFFF" 2 Scenarios.reactive [])).
    reflexivity.
  - apply (proj2 (set_colour_out_of_range "#FFFFFF" 0 Examples.wave [])).
    reflexivity.
Defined.

(** ** Properties of the colour setters on zones and devices *)

Section ZoneColours.

Lemma with_options_same (zone : Backend.Zone) :
  Replay.with_options (Backend.options zone) zone = zone.
Proof. destruct zone; reflexivity. Qed.

Lemma active_effect_index_found (options : list Backend.Option) (opt : Backend.Option) :
  Middleman.get_active_effect_loop options = Some opt ->
  exists i,
    Replay.active_effect_index options = Some i
    /\ options !! i = Some opt
    /\ (forall j o, (j < i)%nat -> options !! j = Some o ->
                    Props.active_effect o = false).
Proof.
  induction options as [|x options IH]; simpl; [discriminate|].
  destruct (Backend.is_EffectOption x && Backend.active x) eqn:E.
  - intros [= <-]. exists 0%nat. repeat split. intros j o Hj. lia.
  - intros H. destruct (IH H) as (i & Hi & Hlook & Hbefore).
    exists (S i). rewrite Hi. repeat split; [exact Hlook|].
    intros [|j] o Hj Ho; simpl in Ho.
    + injection Ho as <-. exact E.
    + apply (Hbefore j o); [lia | exact Ho].
Qed.

Lemma get_active_effect_loop_insert (options : list Backend.Option) (i : nat)
  (opt opt' : Backend.Option) :
  Replay.active_effect_index options = Some i ->
  options !! i = Some opt ->
  Props.active_effect opt' = true ->
  Middleman.get_active_effect_loop (<[i := opt']> options) = Some opt'.
Proof.
  revert i. induction options as [|x options IH]; intros i; simpl; [discriminate|].
  destruct (Backend.is_EffectOption x && Backend.active x) eqn:E.
  - intros [= <-] _ H'. simpl. unfold Props.active_effect in H'. now rewrite H'.
  - destruct (Replay.active_effect_index options) as [k|] eqn:Hk; simpl;
      [|discriminate].
    intros [= <-] Hlook H'. simpl. rewrite E. now apply (IH k).
Qed.

(** X18. [set_colour_for_active_effect_zone] does nothing on a zone
    without active effect. Otherwise it changes the option that
    [get_active_effect] returns, in its place in the zone and nothing
    else: with a valid colour position that option gets the colour and
    is re-applied once, and it is still the zone's active effect; with a
    position outside the option's colours IndexError is raised and the
    zone is unchanged. *)
Theorem set_colour_zone_changes_first_active_effect
  (hex_value : string) (colour_pos : Z) (zone : Backend.Zone)
  (log : list Replay.Action) :
  (Middleman.get_active_effect zone = None ->
   Replay.set_colour_for_active_effect_zone hex_value colour_pos (zone, log)
     = Py.Returns tt (zone, log))
  /\ (forall opt,
        Middleman.get_active_effect zone = Some opt ->
        Recolour.valid_index (Backend.colours opt) colour_pos = true ->
        exists i,
          Backend.options zone !! i = Some opt
          /\ (forall j o, (j < i)%nat -> Backend.options zone !! j = Some o ->
                          Props.active_effect o = false)
          /\ let opt' :=
               Replay.with_colours
                 (<[Recolour.position (Backend.colours opt) colour_pos := hex_value]>
                    (Backend.colours opt)) opt in
             let zone' :=
               Replay.with_options (<[i := opt']> (Backend.options zone)) zone in
             Replay.set_colour_for_active_effect_zone hex_value colour_pos (zone, log)
               = Py.Returns tt
                   (zone', log ++ Replay._apply_option_with_same_params opt)
             /\ Middleman.get_active_effect zone' = Some opt')
  /\ (forall opt,
        Middleman.get_active_effect zone = Some opt ->
        Recolour.valid_index (Backend.colours opt) colour_pos = false ->
        Replay.set_colour_for_active_effect_zone hex_value colour_pos (zone, log)
          = Py.Raises Replay.IndexError (zone, log)).
Proof.
  unfold Replay.set_colour_for_active_effect_zone. split; [|split].
  - intros ->. reflexivity.
  - intros opt Hopt Hvalid. rewrite Hopt.
    destruct (active_effect_index_found _ _ Hopt) as (i & Hi & Hlook & Hbefore).
    exists i. split; [exact Hlook|]. split; [exact Hbefore|].
    rewrite Hi. unfold Replay.set_colour_for_option.
    rewrite (setitem_valid _ _ _ Hvalid). simpl. split; [reflexivity|].
    unfold Middleman.get_active_effect. simpl.
    apply (get_active_effect_loop_insert _ _ opt); [exact Hi | exact Hlook |].
    destruct (get_active_effect_loop_split _ _ Hopt) as (_ & _ & _ & Hact & _).
    exact Hact.
  - intros opt Hopt Hinvalid. rewrite Hopt.
    destruct (active_effect_index_found _ _ Hopt) as (i & Hi & Hlook & _).
    rewrite Hi. unfold Replay.set_colour_for_option.
    rewrite (setitem_invalid _ _ _ Hinvalid).
    rewrite (list_insert_id _ _ _ Hlook), with_options_same. reflexivity.
Qed.

Lemma zone_with_log (hex_value : string) (colour_pos : Z) (zone : Backend.Zone)
  (log : list Replay.Action) :
  Replay.set_colour_for_active_effect_zone hex_value colour_pos (zone, log)
  = if Recolour.zone_returns hex_value colour_pos zone
    then Py.Returns tt
           (Recolour.zone_after hex_value colour_pos zone,
            log ++ Recolour.zone_calls hex_value colour_pos zone)
    else Py.Raises Replay.IndexError (zone, log).
Proof.
  unfold Recolour.zone_returns, Recolour.zone_after, Recolour.zone_calls.
  unfold Replay.set_colour_for_active_effect_zone.
  destruct (Middleman.get_active_effect zone) as [opt|] eqn:Hopt;
    [|now rewrite List.app_nil_r].
  destruct (active_effect_index_found _ _ Hopt) as (i & Hi & Hlook & _).
  rewrite Hi. unfold Replay.set_colour_for_option.
  destruct (Replay.setitem (Backend.colours opt) colour_pos hex_value); simpl.
  - reflexivity.
  - rewrite (list_insert_id _ _ _ Hlook), with_options_same. reflexivity.
Qed.

Lemma zones_loop_returns (hex_value : string) (colour_pos : Z)
  (done todo : list Backend.Zone) (log : list Replay.Action) :
  Forall (fun z => Recolour.zone_returns hex_value colour_pos z = true) todo ->
  Replay.set_colour_zones_loop hex_value colour_pos done todo log
  = Py.Returns tt
      (done ++ map (Recolour.zone_after hex_value colour_pos) todo,
       log ++ flat_map (Recolour.zone_calls hex_value colour_pos) todo).
Proof.
  intros H. revert done log.
  induction H as [|z todo Hz _ IH]; intros done log;
    cbn [Replay.set_colour_zones_loop flat_map map].
  - now rewrite !List.app_nil_r.
  - rewrite zone_with_log, Hz, IH. now rewrite <- !List.app_assoc.
Qed.

Lemma zones_loop_raises (hex_value : string) (colour_pos : Z)
  (done pre : list Backend.Zone) (z : Backend.Zone) (post : list Backend.Zone)
  (log : list Replay.Action) :
  Forall (fun z => Recolour.zone_returns hex_value colour_pos z = true) pre ->
  Recolour.zone_returns hex_value colour_pos z = false ->
  Replay.set_colour_zones_loop hex_value colour_pos done (pre ++ z :: post) log
  = Py.Raises Replay.IndexError
      (done ++ map (Recolour.zone_after hex_value colour_pos) pre ++ z :: post,
       log ++ flat_map (Recolour.zone_calls hex_value colour_pos) pre).
Proof.
  intros H Hz. revert done log.
  induction H as [|p pre Hp _ IH]; intros done log;
    cbn [Replay.set_colour_zones_loop flat_map map app].
  - rewrite zone_with_log, Hz. now rewrite List.app_nil_r.
  - rewrite zone_with_log, Hp, IH. now rewrite <- !List.app_assoc.
Qed.

(** X19. [set_colour_for_active_effect_device] treats the zones in
    order. When the colour position suits the active effect of every
    zone, every zone is treated and the device's other attributes stay.
    When a zone raises IndexError the loop stops there: the zones before
    it are already recoloured and re-applied, that zone and the zones
    after it are untouched, and the exception reaches the caller. *)
Theorem set_colour_device_stops_at_first_failure
  (hex_value : string) (colour_pos : Z) (device : Backend.DeviceItem)
  (log : list Replay.Action) :
  (Forall (fun z => Recolour.zone_returns hex_value colour_pos z = true)
     (Backend.zones device) ->
   Replay.set_colour_for_active_effect_device hex_value colour_pos (device, log)
   = Py.Returns tt
       (Replay.with_zones
          (map (Recolour.zone_after hex_value colour_pos) (Backend.zones device))
          device,
        log ++ flat_map (Recolour.zone_calls hex_value colour_pos)
                 (Backend.zones device)))
  /\ (forall pre z post,
        Backend.zones device = pre ++ z :: post ->
        Forall (fun z => Recolour.zone_returns hex_value colour_pos z = true) pre ->
        Recolour.zone_returns hex_value colour_pos z = false ->
        Replay.set_colour_for_active_effect_device hex_value colour_pos (device, log)
        = Py.Raises Replay.IndexError
            (Replay.with_zones
               (map (Recolour.zone_after hex_value colour_pos) pre ++ z :: post)
               device,
             log ++ flat_map (Recolour.zone_calls hex_value colour_pos) pre)).
Proof.
  unfold Replay.set_colour_for_active_effect_device. split.
  - intros H. now rewrite (zones_loop_returns _ _ [] _ _ H).
  - intros pre z post -> Hpre Hz.
    now rewrite (zones_loop_raises _ _ [] _ _ _ _ Hpre Hz).
Qed.

End ZoneColours.

Lemma set_colour_zone_changes_first_active_effect_witness :
  Replay.set_colour_for_active_effect_zone "#FFFFFF" 1 (Scenarios.logo_zone, [])
    = Py.Returns tt
        (Replay.with_options
           [Examples.brightness; Examples.static;
            Replay.with_colours ["#FF0000"; "#FFFFFF"] Scenarios.reactive]
           Scenarios.logo_zone,
         [Replay.Apply "reactive" (Replay.ApplyData "fast")])
  /\ Replay.set_colour_for_active_effect_zone "#FFFFFF" 1 (Examples.idle_zone, [])
     = Py.Returns tt (Examples.idle_zone, [])
  /\ Replay.set_colour_for_active_effect_zone "#FFFFFF" 1 (Examples.main_zone, [])
     = Py.Raises Replay.IndexError (Examples.main_zone, []).
Proof.
  split; [|split].
  - destruct (proj1 (proj2 (set_colour_zone_changes_first_active_effect
                              "#FFFFFF" 1 Scenarios.logo_zone []))
                Scenarios.reactive eq_refl eq_refl) as (i & Hi & _ & Hret & _).
    destruct i as [|[|[|i]]]; try discriminate Hi. exact Hret.
  - apply (proj1 (set_colour_zone_changes_first_active_effect
                    "#FFFFFF" 1 Examples.idle_zone [])). reflexivity.
  - apply (proj2 (proj2 (set_colour_zone_changes_first_active_effect
                           "#FFFFFF" 1 Examples.main_zone [])) Examples.wave);
      reflexivity.
Defined.

Lemma set_colour_device_stops_at_first_failure_witness :
  Replay.set_colour_for_active_effect_device "#FFFFFF" 1 (Scenarios.mouse, [])
    = Py.Raises Replay.IndexError
        (Replay.with_zones
           [Examples.idle_zone;
            Replay.with_options
              [Examples.brightness; Examples.static;
               Replay.with_colours ["#FF0000"; "#FFFFFF"] Scenarios.reactive]
              Scenarios.logo_zone;
            Examples.main_zone]
           Scenarios.mouse,
         [Replay.Apply "reactive" (Replay.ApplyData "fast")])
  /\ Replay.set_colour_for_active_effect_device "#FFFFFF" 1
       (Replay.with_zones [Examples.idle_zone; Scenarios.logo_zone] Scenarios.mouse, [])
     = Py.Returns tt
         (Replay.with_zones
            [Examples.idle_zone;
             Replay.with_options
               [Examples.brightness; Examples.static;
                Replay.with_colours ["#FF0000"; "#FFFFFF"] Scenarios.reactive]
               Scenarios.logo_zone]
            Scenarios.mouse,
          [Replay.Apply "reactive" (Replay.ApplyData "fast")]).
Proof.
  split.
  - apply (proj2 (set_colour_device_stops_at_first_failure
                    "#FFFFFF" 1 Scenarios.mouse [])
             [Examples.idle_zone; Scenarios.logo_zone] Examples.main_zone []).
    + reflexivity.
    + repeat constructor.
    + reflexivity.
  - apply (proj1 (set_colour_device_stops_at_first_failure "#FFFFFF" 1
                    (Replay.with_zones [Examples.idle_zone; Scenarios.logo_zone]
                       Scenarios.mouse) [])).
    repeat constructor.
Defined.

(** ** Properties of [replay_active_effect] *)

Section ReplayActiveEffect.
Context {World : Type}.
Variable refresh : Backend.DeviceItem -> World -> Backend.DeviceItem * World.
Variable get_effect : string -> World -> option (gmap string string).

Lemma replay_zones_loop_calls (zones : list Backend.Zone) :
  Replay.replay_zones_loop zones = Recolour.active_effect_calls zones.
Proof.
  induction zones as [|zone zones IH]; simpl; [reflexivity|].
  destruct (Middleman.get_active_effect zone) as [opt|] eqn:Hopt; [|exact IH].
  destruct (get_active_effect_loop_split _ _ Hopt) as (_ & _ & _ & Hact & _).
  unfold Props.active_effect in Hact. apply andb_true_iff in Hact.
  destruct Hact as [_ ->]. now rewrite IH.
Qed.

(** X20. [replay_active_effect] first refreshes the device. If a
    software effect is recorded for the device (a non-empty dictionary)
    it starts the helper on the effect's path and applies no option; if
    that dictionary has no "path" the KeyError propagates and nothing is
    started. Otherwise (no effect, or an empty dictionary) it re-applies
    the active effect of every zone that has one, in zone order; the
    second test of the option's active flag never skips an option. *)
Theorem replay_active_effect_outcomes (device : Backend.DeviceItem) (w : World)
  (log : list Replay.Action) :
  let device' := fst (refresh device w) in
  let w' := snd (refresh device w) in
  Replay.replay_active_effect refresh get_effect (device, w, log)
  = match get_effect (Backend.serial device') w' with
    | Some d =>
        if bool_decide (d = ∅)
        then Py.Returns tt
               (device', w',
                log ++ Recolour.active_effect_calls (Backend.zones device'))
        else
          match d !! "path" with
          | Some path =>
              Py.Returns tt
                (device', w',
                 log ++ [Replay.StartComponent "helper"
                           ["--run-fx"; path; "--device-serial";
                            Backend.serial device']])
          | None => Py.Raises (Py.KeyError "path") (device', w', log)
          end
    | None =>
        Py.Returns tt
          (device', w', log ++ Recolour.active_effect_calls (Backend.zones device'))
    end.
Proof.
  unfold Replay.replay_active_effect, Replay.effect_truthy.
  destruct (refresh device w) as [device' w']; simpl.
  rewrite replay_zones_loop_calls.
  destruct (get_effect (Backend.serial device') w') as [d|]; [|reflexivity].
  destruct (bool_decide (d = ∅)); reflexivity.
Qed.

End ReplayActiveEffect.

(** ** Properties of the performance options of the laptop tab *)

Section LaptopFacts.
Variable EffectOption_init : Backend.Option.
Variable tr : string -> string.

Local Abbreviation system_options :=
  (Laptop._get_system_performance_options EffectOption_init tr).
Local Abbreviation cpu_options :=
  (Laptop._get_cpu_performance_options EffectOption_init tr).
Local Abbreviation gpu_options :=
  (Laptop._get_gpu_performance_options EffectOption_init tr).
Local Abbreviation uid_of o := (Backend.uid (Laptop.po_option o)).

(** X21. [_get_system_performance_options] returns its list only when
    [has_custom] is set, the [return] being inside that branch: without
    the flag the result is [None], whatever options were collected. With
    it the list holds the options of the flags that are set, in the
    order silent, balanced, boost. *)
Theorem system_options_need_has_custom (self : Laptop.LaptopTab) :
  match system_options self with
  | None => Laptop.has_custom self = false
  | Some options =>
      Laptop.has_custom self = true
      /\ map (fun o => uid_of o) options
         = (if Laptop.has_silent self then ["silent"] else [])
           ++ (if Laptop.has_balanced self then ["balanced"] else [])
           ++ ["boost"]
  end.
Proof.
  unfold Laptop._get_system_performance_options.
  destruct (Laptop.has_silent self), (Laptop.has_balanced self),
    (Laptop.has_custom self); simpl; auto.
Qed.

(** X22. The options of the CPU group, like those of the GPU and system
    groups, store their value in [performance_state]: [cpu_state] and
    [gpu_state] are never written. After a CPU option is applied, a
    refresh marks the GPU option of the same name active as well (none
    for "Boost"), and marks no option of the system group active. *)
Theorem cpu_option_writes_performance_state
  (parent : Laptop.LaptopTab) (o : Laptop.PerfOption) :
  In o cpu_options ->
  let parent' := Laptop.apply o parent in
  Laptop.performance_state parent' = uid_of o
  /\ Laptop.cpu_state parent' = Laptop.cpu_state parent
  /\ Laptop.gpu_state parent' = Laptop.gpu_state parent
  /\ map Backend.uid
       (List.filter Backend.active (Laptop.refreshed parent' gpu_options))
     = List.filter (String.eqb (uid_of o)) ["Low"; "Mid"; "High"]
  /\ match system_options parent' with
     | Some options =>
         List.filter Backend.active (Laptop.refreshed parent' options) = []
     | None => True
     end.
Proof.
  intros Hin. simpl in Hin.
  destruct Hin as [<-|[<-|[<-|[<-|[]]]]]; simpl;
    (repeat split; try reflexivity);
    unfold Laptop._get_system_performance_options; simpl;
    destruct (Laptop.has_silent parent), (Laptop.has_balanced parent),
      (Laptop.has_custom parent); simpl; auto.
Qed.

(** X23. Within the CPU group the selection is exclusive: after one of
    its options is applied and the group refreshed, that option is the
    active effect that [get_active_effect] finds in the group, and the
    only option flagged active. *)
Theorem cpu_option_selection_is_exclusive
  (parent : Laptop.LaptopTab) (o : Laptop.PerfOption) :
  In o cpu_options ->
  let parent' := Laptop.apply o parent in
  Middleman.get_active_effect_loop (Laptop.refreshed parent' cpu_options)
    = Some (Laptop.po_option (Laptop.refresh parent' o))
  /\ List.filter Props.active_effect (Laptop.refreshed parent' cpu_options)
     = [Laptop.po_option (Laptop.refresh parent' o)].
Proof.
  intros Hin. simpl in Hin.
  destruct Hin as [<-|[<-|[<-|[<-|[]]]]]; simpl; split; reflexivity.
Qed.

End LaptopFacts.

Lemma cpu_option_writes_performance_state_witness :
  Laptop.performance_state
    (Laptop.apply (Laptop.Option_new Examples.static "Mid" "Mid" "Mid")
       Laptop.LaptopTab_new) = "Mid"
  /\ Laptop.cpu_state
       (Laptop.apply (Laptop.Option_new Examples.static "Mid" "Mid" "Mid")
          Laptop.LaptopTab_new) = "low".
Proof.
  destruct (cpu_option_writes_performance_state Examples.static (fun s => s)
              Laptop.LaptopTab_new
              (Laptop.Option_new Examples.static "Mid" "Mid" "Mid"))
    as (H1 & H2 & _).
  - simpl. right. left. reflexivity.
  - split; [exact H1 | exact H2].
Defined.

Lemma cpu_option_selection_is_exclusive_witness :
  Middleman.get_active_effect_loop
    (Laptop.refreshed
       (Laptop.apply (Laptop.Option_new Examples.static "High" "High" "High")
          Laptop.LaptopTab_new)
       (Laptop._get_cpu_performance_options Examples.static (fun s => s)))
  = Some (Laptop.with_active true
            (Laptop.po_option (Laptop.Option_new Examples.static "High" "High" "High"))).
Proof.
  apply (proj1 (cpu_option_selection_is_exclusive Examples.static (fun s => s)
                  Laptop.LaptopTab_new
                  (Laptop.Option_new Examples.static "High" "High" "High")
                  ltac:(simpl; tauto))).
Defined.
